(** * django-orghierarchy: the hierarchy-aware forms and the organization admin

    A shallow embedding of [django_orghierarchy/forms.py] and of the parts of
    the organization admin that [tests/test_admin.py] exercises.

    - Organizations are rows of a table ([list Organization]); a queryset is
      the list of rows it evaluates to.
    - Python dictionaries ([self.fields], [kwargs], [self.initial],
      [cleaned_data]) are finite maps with string keys.
    - Python exceptions are the [Raise] branch of [result]. *)

From stdpp Require Import gmap strings list fin_maps.
From Stdlib Require Import ZArith.

(** ** Exceptions *)

Inductive exn :=
  | KeyError (key : string)
  | TypeError (msg : string)
  | ValidationError (message : string).

Inductive result (A : Type) :=
  | Ok (a : A)
  | Raise (e : exn).
Arguments Ok {A} a.
Arguments Raise {A} e.

(** Sequencing stops at the first exception; [x ← r; k] is stdpp's notation
    for it. *)
#[global] Instance result_bind : MBind result := λ A B k r,
  match r with
  | Ok a => k a
  | Raise e => Raise e
  end.

#[global] Instance exn_eq_dec : EqDecision exn.
Proof. solve_decision. Defined.

(** ** models.Organization *)

(** Modelled from the spec: [models.py] is not among the sources; the two
    internal types are those of section 3, which [forms.py] reads as
    [Organization.NORMAL] and [Organization.AFFILIATED]. *)
Inductive InternalType := NORMAL | AFFILIATED.

#[global] Instance InternalType_eq_dec : EqDecision InternalType.
Proof. solve_decision. Defined.

(** Modelled from the spec: [models.py] is not among the sources; the
    columns are the attributes of section 3, under the names of
    [Meta.fields] in [forms.py] and of the tests.  Foreign keys and the
    members of the many-to-many sets are primary keys. *)
Record Organization := mkOrganization {
  id : option Z;
  data_source : option Z;
  origin_id : string;
  classification : option Z;
  name : string;
  founding_date : option string;
  dissolution_date : option string;
  internal_type : InternalType;
  parent : option Z;
  replaced_by : option Z;
  created_by : option Z;
  last_modified_by : option Z;
  admin_users : list Z;
  regular_users : list Z;
}.

#[global] Instance Organization_eq_dec : EqDecision Organization.
Proof. solve_decision. Defined.

(** [Organization()]: the unsaved instance a model form starts from when the
    caller passes none. *)
Definition new_Organization : Organization :=
  mkOrganization None None "" None "" None None NORMAL None None None None [] [].

(** Python's truth value of a primary key, as in [if self.instance.id:]:
    [None] and [0] are both false. *)
Definition truthy (pk : option Z) : bool :=
  match pk with
  | Some k => negb (k =? 0)%Z
  | None => false
  end.

(** ** Querysets *)

Abbreviation QuerySet := (list Organization) (only parsing).

(** [Organization.objects] *)
Definition objects (db : list Organization) : QuerySet := db.

(** [qs.filter(replaced_by__isnull=True)] *)
Definition filter_replaced_by__isnull (qs : QuerySet) : QuerySet :=
  filter (λ o, replaced_by o = None) qs.

(** [qs.exclude(id=pk)] *)
Definition exclude_id (pk : option Z) (qs : QuerySet) : QuerySet :=
  filter (λ o, id o ≠ pk) qs.

(** [qs.exclude(id__in=pks)] *)
Definition exclude_id__in (pks : list Z) (qs : QuerySet) : QuerySet :=
  filter (λ o, id o ∉ Some <$> pks) qs.

(** [qs.values_list('id', flat=True)] *)
Definition values_list_id (qs : QuerySet) : list Z :=
  omap id qs.

(** [qs.get(id=k)], as an option. *)
Definition get_by_id (db : list Organization) (k : Z) : option Organization :=
  head (filter (λ o, id o = Some k) db).

(** The primary keys met walking up the [parent] links from [p]; the walk
    stops after [fuel] steps, so it also ends on a table whose links form a
    cycle. *)
Fixpoint ancestor_ids (db : list Organization) (fuel : nat) (p : option Z) : list Z :=
  match fuel, p with
  | S n, Some k =>
      k :: match get_by_id db k with
           | Some o => ancestor_ids db n (parent o)
           | None => []
           end
  | _, _ => []
  end.

(** Modelled from the spec: [self.get_descendants(include_self)] comes with
    the model class of [models.py], which is not among the sources; by
    sections 3 and 4.1 it is the subtree of [self]: the rows below [self] in
    the tree that the [parent] links describe, and [self]'s own row when
    [include_self] is set.  An unsaved instance has no descendants. *)
Definition get_descendants (db : list Organization) (self : Organization)
    (include_self : bool) : QuerySet :=
  match id self with
  | Some k =>
      filter (λ o, (include_self = true ∧ id o = Some k)
                   ∨ k ∈ ancestor_ids db (length db) (parent o)) db
  | None => []
  end.

(** ** Python values, dictionaries and calls *)

(** What a form stores under a field name: in [initial], in the submitted
    [data] and in [cleaned_data]. *)
Inductive value :=
  | VNone
  | VStr (s : string)
  | VInt (z : Z)
  | VType (t : InternalType)
  | VOrg (pk : Z)
  | VUsers (pks : list Z).

#[global] Instance value_eq_dec : EqDecision value.
Proof. solve_decision. Defined.

(** An argument of a constructor call. *)
Inductive pyobj :=
  | PyNone
  | PyBool (b : bool)
  | PyStr (s : string)
  | PyDict (d : gmap string value)
  | PyInstance (o : Organization).

(** [k in d] *)
Definition contains {V} (d : gmap string V) (k : string) : bool :=
  bool_decide (is_Some (d !! k)).

(** [d[k]] *)
Definition getitem {V} (d : gmap string V) (k : string) : result V :=
  match d !! k with
  | Some v => Ok v
  | None => Raise (KeyError k)
  end.

(** [d.get(k)] *)
Definition dict_get (d : gmap string value) (k : string) : value :=
  default VNone (d !! k).

(** [o[k] = v]: only a dictionary supports item assignment. *)
Definition setitem (o : pyobj) (k : string) (v : value) : result pyobj :=
  match o with
  | PyDict d => Ok (PyDict (<[k := v]> d))
  | _ => Raise (TypeError "object does not support item assignment")
  end.

(** Binding of the positional arguments to the parameters of a signature, in
    order. *)
Fixpoint bind_positional (params : list string) (args : list pyobj)
    : result (gmap string pyobj) :=
  match args, params with
  | [], _ => Ok ∅
  | a :: args', p :: params' =>
      m ← bind_positional params' args'; Ok (<[p := a]> m)
  | _ :: _, [] => Raise (TypeError "too many positional arguments")
  end.

(** Binding of a call with positional and keyword arguments to a signature
    of named parameters: a keyword the signature lacks, or a parameter given
    both by position and by keyword, is a [TypeError]. *)
Definition bind_params (params : list string) (args : list pyobj)
    (kwargs : gmap string pyobj) : result (gmap string pyobj) :=
  pos ← bind_positional params args;
  if bool_decide (map_Forall (λ k _, k ∈ params) kwargs) then
    if bool_decide (map_Forall (λ k _, pos !! k = None) kwargs)
    then Ok (kwargs ∪ pos)
    else Raise (TypeError "got multiple values for argument")
  else Raise (TypeError "got an unexpected keyword argument").

(** ** django.forms.ModelForm, as far as the forms below rely on it *)

(** A form field.  Only the choice fields over organizations carry a
    queryset here. *)
Record Field := mkField {
  required : bool;
  queryset : option QuerySet;
}.

(** [field.queryset = qs] *)
Definition set_queryset (f : Field) (qs : QuerySet) : Field :=
  mkField (required f) (Some qs).

(** What a form class fixes: [Meta.fields] and the class's [base_fields]
    (the admin derives classes with fewer fields from a form class). *)
Record FormClass := mkFormClass {
  Meta_fields : list string;
  base_fields : gmap string Field;
}.

Record ModelForm := mkModelForm {
  instance : Organization;
  fields : gmap string Field;
  initial : gmap string value;
  data : option (gmap string value);
  cleaned_data : gmap string value;
}.

Definition set_fields (self : ModelForm) (fs : gmap string Field) : ModelForm :=
  mkModelForm (instance self) fs (initial self) (data self) (cleaned_data self).

Definition opt_value {A} (f : A → value) (o : option A) : value :=
  match o with
  | Some a => f a
  | None => VNone
  end.

(** The value of a column of an instance, by field name. *)
Definition value_from_object (o : Organization) (f : string) : option value :=
  if decide (f = "data_source") then Some (opt_value VInt (data_source o))
  else if decide (f = "origin_id") then Some (VStr (origin_id o))
  else if decide (f = "classification") then Some (opt_value VInt (classification o))
  else if decide (f = "name") then Some (VStr (name o))
  else if decide (f = "founding_date") then Some (opt_value VStr (founding_date o))
  else if decide (f = "dissolution_date") then Some (opt_value VStr (dissolution_date o))
  else if decide (f = "internal_type") then Some (VType (internal_type o))
  else if decide (f = "parent") then Some (opt_value VOrg (parent o))
  else if decide (f = "replaced_by") then Some (opt_value VOrg (replaced_by o))
  else if decide (f = "admin_users") then Some (VUsers (admin_users o))
  else if decide (f = "regular_users") then Some (VUsers (regular_users o))
  else None.

(** [model_to_dict(instance, opts.fields)] *)
Fixpoint model_to_dict (o : Organization) (fs : list string) : gmap string value :=
  match fs with
  | [] => ∅
  | f :: fs' =>
      match value_from_object o f with
      | Some v => <[f := v]> (model_to_dict o fs')
      | None => model_to_dict o fs'
      end
  end.

(** The signature of [BaseModelForm.__init__]. *)
Definition ModelForm_params : list string :=
  ["data"; "files"; "auto_id"; "prefix"; "initial"; "error_class";
   "label_suffix"; "empty_permitted"; "instance"; "use_required_attribute"].

(** [ModelForm.__init__]: the instance is the one passed or a new one, the
    initial values are the instance's, overridden by the [initial] argument,
    and the fields are a copy of the class's.  An argument of another kind
    than these is refused here with [TypeError]; the framework stores such
    data unchecked and raises other exceptions for the rest. *)
Definition ModelForm__init__ (cls : FormClass) (args : list pyobj)
    (kwargs : gmap string pyobj) : result ModelForm :=
  b ← bind_params ModelForm_params args kwargs;
  io ← match default PyNone (b !! "instance") with
       | PyNone => Ok (new_Organization, ∅)
       | PyInstance o => Ok (o, model_to_dict o (Meta_fields cls))
       | _ => Raise (TypeError "instance is not a model instance")
       end;
  object_data ← match default PyNone (b !! "initial") with
                | PyNone => Ok (io.2)
                | PyDict d => Ok (d ∪ io.2)
                | _ => Raise (TypeError "initial is not a mapping")
                end;
  d ← match default PyNone (b !! "data") with
      | PyNone => Ok None
      | PyDict d => Ok (Some d)
      | _ => Raise (TypeError "data is not a mapping")
      end;
  Ok (mkModelForm io.1 (base_fields cls) object_data d ∅).

(** [ModelForm.clean] returns [self.cleaned_data]. *)
Definition ModelForm_clean (self : ModelForm) : gmap string value :=
  cleaned_data self.

(** ** forms.OrganizationForm *)

Definition OrganizationForm_Meta_fields : list string :=
  ["data_source"; "origin_id"; "classification";
   "name"; "founding_date"; "dissolution_date";
   "internal_type"; "parent"; "admin_users";
   "regular_users"; "replaced_by"].

(** The field a model form derives for a column: a choice over all
    organizations for the two self-referential foreign keys. *)
Definition formfield (db : list Organization) (f : string) : Field :=
  if bool_decide (f = "parent" ∨ f = "replaced_by")
  then mkField false (Some (objects db))
  else mkField false None.

(** The form class as declared: every field of [Meta.fields]. *)
Definition OrganizationForm (db : list Organization) : FormClass :=
  mkFormClass OrganizationForm_Meta_fields
    (list_to_map ((λ f, (f, formfield db f)) <$> OrganizationForm_Meta_fields)).

(** A class derived from [OrganizationForm] that leaves the fields [ex] out,
    as the admin does for read-only fields. *)
Definition OrganizationForm_exclude (db : list Organization) (ex : list string)
    : FormClass :=
  mkFormClass (filter (λ f, f ∉ ex) OrganizationForm_Meta_fields)
    (filter (λ kv, kv.1 ∉ ex) (base_fields (OrganizationForm db))).

Section Forms.

(** [django.utils.translation.ugettext]: the message in the active language. *)
Variable ugettext : string → string.

(** Lines 23-29 of [__init__]. *)
Definition restrict_replaced_by (db : list Organization) (self : ModelForm)
    : result ModelForm :=
  if contains (fields self) "replaced_by" then
    let qs := filter_replaced_by__isnull (objects db) in
    let qs := if truthy (id (instance self))
              then exclude_id (id (instance self)) qs
              else qs in
    f ← getitem (fields self) "replaced_by";
    Ok (set_fields self (<["replaced_by" := set_queryset f qs]> (fields self)))
  else Ok self.

(** Lines 31-34 of [__init__]. *)
Definition restrict_parent (db : list Organization) (self : ModelForm)
    : result ModelForm :=
  if contains (fields self) "parent" && truthy (id (instance self)) then
    let desc_ids := values_list_id (get_descendants db (instance self) true) in
    f ← getitem (fields self) "parent";
    Ok (set_fields self
          (<["parent" := set_queryset f (exclude_id__in desc_ids (objects db))]>
             (fields self)))
  else Ok self.

(** [OrganizationForm.__init__], called with positional arguments [args] and
    keyword arguments [kwargs]. *)
Definition OrganizationForm__init__ (db : list Organization) (cls : FormClass)
    (args : list pyobj) (kwargs : gmap string pyobj) : result ModelForm :=
  self ← ModelForm__init__ cls args kwargs;
  self ← restrict_replaced_by db self;
  restrict_parent db self.

Definition affiliated_needs_parent : string :=
  "Affiliated organization must have a parent organization".

(** [OrganizationForm.clean(self)] *)
Definition OrganizationForm_clean (self : ModelForm) : result (gmap string value) :=
  let cleaned_data := ModelForm_clean self in
  let internal_type := dict_get cleaned_data "internal_type" in
  let parent := dict_get cleaned_data "parent" in
  if bool_decide (internal_type = VType AFFILIATED) && bool_decide (parent = VNone)
  then Raise (ValidationError (ugettext affiliated_needs_parent))
  else Ok cleaned_data.

End Forms.

(** ** forms.SubOrganizationForm and forms.AffiliatedOrganizationForm *)

(** The class attribute a subclass overrides. *)
Class InlineFormClass := { default_internal_type : InternalType }.

Definition SubOrganizationForm : InlineFormClass :=
  {| default_internal_type := NORMAL |}.

Definition AffiliatedOrganizationForm : InlineFormClass :=
  {| default_internal_type := AFFILIATED |}.

Definition SubOrganizationForm_Meta_fields : list string :=
  ["internal_type"; "data_source"; "origin_id";
   "classification"; "name"; "founding_date"].

Definition SubOrganizationForm_class : FormClass :=
  mkFormClass SubOrganizationForm_Meta_fields
    (list_to_map ((λ f, (f, mkField false None)) <$> SubOrganizationForm_Meta_fields)).

(** [SubOrganizationForm.__init__], inherited by
    [AffiliatedOrganizationForm]; [self.default_internal_type] is the
    attribute of the class being constructed.  Dictionaries are values
    here: the form gets the dictionary that line 63 leaves, and the effect
    of that write on other holders of the caller's dictionary is not
    modelled. *)
Definition SubOrganizationForm__init__ (cls : InlineFormClass)
    (args : list pyobj) (kwargs : gmap string pyobj) : result ModelForm :=
  let kwargs := if contains kwargs "initial" then kwargs
                else <["initial" := PyDict ∅]> kwargs in
  i ← getitem kwargs "initial";
  i ← setitem i "internal_type" (VType (@default_internal_type cls));
  let kwargs := <["initial" := i]> kwargs in
  ModelForm__init__ SubOrganizationForm_class args kwargs.

(** [clean_internal_type(self)] *)
Definition clean_internal_type (self : ModelForm) : result value :=
  getitem (initial self) "internal_type".

(** ** admin.OrganizationAdmin *)

Record User := mkUser {
  user_id : Z;
  username : string;
  is_staff : bool;
  is_superuser : bool;
  user_permissions : list string;
}.

Record Request := mkRequest { user : User }.

(** [user.has_perm(codename)]: a superuser holds every permission. *)
Definition has_perm (u : User) (codename : string) : bool :=
  is_superuser u || bool_decide (codename ∈ user_permissions u).

(** [user.user_permissions.add(perm)] *)
Definition user_permissions_add (u : User) (codename : string) : User :=
  mkUser (user_id u) (username u) (is_staff u) (is_superuser u)
    (codename :: user_permissions u).

Definition set_admin_users (o : Organization) (us : list Z) : Organization :=
  mkOrganization (id o) (data_source o) (origin_id o) (classification o)
    (name o) (founding_date o) (dissolution_date o) (internal_type o)
    (parent o) (replaced_by o) (created_by o) (last_modified_by o)
    us (regular_users o).

Definition set_created_by (o : Organization) (u : option Z) : Organization :=
  mkOrganization (id o) (data_source o) (origin_id o) (classification o)
    (name o) (founding_date o) (dissolution_date o) (internal_type o)
    (parent o) (replaced_by o) u (last_modified_by o)
    (admin_users o) (regular_users o).

Definition set_last_modified_by (o : Organization) (u : option Z) : Organization :=
  mkOrganization (id o) (data_source o) (origin_id o) (classification o)
    (name o) (founding_date o) (dissolution_date o) (internal_type o)
    (parent o) (replaced_by o) (created_by o) u
    (admin_users o) (regular_users o).

Definition set_id (o : Organization) (k : option Z) : Organization :=
  mkOrganization k (data_source o) (origin_id o) (classification o)
    (name o) (founding_date o) (dissolution_date o) (internal_type o)
    (parent o) (replaced_by o) (created_by o) (last_modified_by o)
    (admin_users o) (regular_users o).

(** [organization.admin_users.add(u)] on one row: the set gains the member,
    once. *)
Definition add_admin_user (o : Organization) (u : User) : Organization :=
  if decide (user_id u ∈ admin_users o) then o
  else set_admin_users o (user_id u :: admin_users o).

(** [organization.admin_users.add(u)], written to the table, for the
    organization with key [k]. *)
Definition admin_users_add (db : list Organization) (k : Z) (u : User)
    : list Organization :=
  (λ o, if decide (id o = Some k) then add_admin_user o u else o) <$> db.

(** The key the database gives the next inserted row: above every key in
    use, and at least 1. *)
Definition next_id (db : list Organization) : Z :=
  (1 + foldr Z.max 0 (values_list_id db))%Z.

(** [obj.save()]: a row with the instance's key is replaced; an instance
    without a key, or whose key has no row, is inserted, with a new key in
    the first case.  Returns the table and the instance as saved. *)
Definition Model_save (db : list Organization) (obj : Organization)
    : list Organization * Organization :=
  match id obj with
  | Some k =>
      if bool_decide (Some k ∈ id <$> db)
      then ((λ o, if decide (id o = Some k) then obj else o) <$> db, obj)
      else (db ++ [obj], obj)
  | None =>
      let obj' := set_id obj (Some (next_id db)) in
      (db ++ [obj'], obj')
  end.

(** Modelled from the spec: [admin.py] is not among the sources, so
    [OrganizationAdmin.get_queryset] follows section 4.3 (superusers see all
    organizations, other staff the organizations whose admin-user set holds
    them) and [test_get_queryset]. *)
Definition OrganizationAdmin_get_queryset (db : list Organization)
    (request : Request) : list Organization :=
  let qs := objects db in
  if is_superuser (user request) then qs
  else filter (λ o, user_id (user request) ∈ admin_users o) qs.

(** Modelled from the spec: [admin.py] is not among the sources, so
    [OrganizationAdmin.save_model] follows sections 3 and 4.3 (on create the
    acting user becomes the creator, on every save the last modifier) and
    [test_save_model]; a create is a save of an instance that has no key
    yet.  The arguments [form] and [change] are [None] in the test and are
    left out. *)
Definition OrganizationAdmin_save_model (db : list Organization)
    (request : Request) (obj : Organization) : list Organization * Organization :=
  let u := Some (user_id (user request)) in
  let obj := if truthy (id obj) then obj else set_created_by obj u in
  let obj := set_last_modified_by obj u in
  Model_save db obj.

(** A run of saves of one object by the users of [requests], in order. *)
Fixpoint save_all (db : list Organization) (requests : list Request)
    (obj : Organization) : list Organization * Organization :=
  match requests with
  | [] => (db, obj)
  | r :: rs =>
      let s := OrganizationAdmin_save_model db r obj in
      save_all s.1 rs s.2
  end.

Definition change_affiliated_organization : string :=
  "change_affiliated_organization".

Definition change_organization : string := "change_organization".

(** [ModelAdmin.has_change_permission] of the framework: the model's own
    change permission. *)
Definition ModelAdmin_has_change_permission (request : Request)
    (obj : option Organization) : bool :=
  has_perm (user request) change_organization.

(** Modelled from the spec: [admin.py] is not among the sources, so
    [OrganizationAdmin.has_change_permission] follows section 4.3: granted
    to superusers, or to staff holding the change-affiliated-organization
    permission, for organizations that are affiliated, and decided per
    object.  Without an object, as [test_has_change_permission] calls it,
    that permission decides.  For an organization that is not affiliated the
    section names no rule of its own: the decision is the [delegate]'s, the
    check the admin class inherits. *)
Definition OrganizationAdmin_has_change_permission
    (delegate : Request → option Organization → bool)
    (request : Request) (obj : option Organization) : bool :=
  if is_superuser (user request) then true
  else match obj with
       | None => has_perm (user request) change_affiliated_organization
       | Some o =>
           match internal_type o with
           | AFFILIATED => has_perm (user request) change_affiliated_organization
           | NORMAL => delegate request obj
           end
       end.

(** The admin class: its [readonly_fields] attribute is declared in
    [admin.py]. *)
Record ModelAdmin := mkModelAdmin { readonly_fields : list string }.

(** Modelled from the spec: [admin.py] is not among the sources, so
    [OrganizationAdmin.get_readonly_fields] follows section 4.3 as far as
    [test_get_readonly_fields] bears it out: without an object the result is
    the class's [readonly_fields]; with an object it is the form's base
    fields for a user without the change-organization permission, and
    [readonly_fields] for a user who holds it. *)
Definition OrganizationAdmin_get_readonly_fields (self : ModelAdmin)
    (request : Request) (obj : option Organization) : list string :=
  match obj with
  | Some _ =>
      if has_perm (user request) change_organization
      then readonly_fields self
      else OrganizationForm_Meta_fields
  | None => readonly_fields self
  end.

(** One set of field names is broader than another: it holds every name of
    the other and one more. *)
Definition broader (a b : list string) : Prop :=
  b ⊆ a ∧ ¬ a ⊆ b.

(** ** Walks along the links of the table, and saved choices *)

(** The parent key of the row with key [j], if both exist. *)
Definition parent_of (db : list Organization) (j : Z) : option Z :=
  match get_by_id db j with
  | Some o => parent o
  | None => None
  end.

(** The keys met from [q] along a successor function, [fuel] steps at most. *)
Fixpoint walk (next : Z → option Z) (fuel : nat) (q : option Z) : list Z :=
  match fuel, q with
  | S n, Some j => j :: walk next n (next j)
  | _, _ => []
  end.

(** No key is above itself. *)
Definition walk_acyclic (next : Z → option Z) : Prop :=
  ∀ j n, j ∉ walk next n (next j).

(** No organization is among its own ancestors, however far the walk up the
    parent links goes. *)
Definition acyclic (db : list Organization) : Prop :=
  ∀ o j n, o ∈ db → id o = Some j → j ∉ ancestor_ids db n (parent o).

Definition set_parent (o : Organization) (p : option Z) : Organization :=
  mkOrganization (id o) (data_source o) (origin_id o) (classification o)
    (name o) (founding_date o) (dissolution_date o) (internal_type o)
    p (replaced_by o) (created_by o) (last_modified_by o)
    (admin_users o) (regular_users o).

(** The table after the organization with key [k] is saved with the parent
    [p]. *)
Definition update_parent (db : list Organization) (k : Z) (p : option Z)
    : list Organization :=
  (λ o, if decide (id o = Some k) then set_parent o p else o) <$> db.

Definition set_replaced_by (o : Organization) (r : option Z) : Organization :=
  mkOrganization (id o) (data_source o) (origin_id o) (classification o)
    (name o) (founding_date o) (dissolution_date o) (internal_type o)
    (parent o) r (created_by o) (last_modified_by o)
    (admin_users o) (regular_users o).

(** The table after the organization with key [k] is saved with the
    replacement [r]. *)
Definition update_replaced_by (db : list Organization) (k : Z) (r : option Z)
    : list Organization :=
  (λ o, if decide (id o = Some k) then set_replaced_by o r else o) <$> db.

(** The key of the replacement of the row with key [j], if both exist. *)
Definition replaced_by_of (db : list Organization) (j : Z) : option Z :=
  match get_by_id db j with
  | Some o => replaced_by o
  | None => None
  end.

(** ** A well-formed table, and sample data *)

(** Primary keys are present and unique. *)
Definition wf_table (db : list Organization) : Prop :=
  NoDup (id <$> db) ∧ Forall (λ o, is_Some (id o)) db.

Definition org (k : Z) (p r : option Z) (t : InternalType) : Organization :=
  mkOrganization (Some k) None "" None "" None None t p r None None [] [].

(** A root, its child, an affiliated grandchild replaced by the root, and a
    second root. *)
Definition root : Organization := org 1 None None NORMAL.
Definition child : Organization := org 2 (Some 1%Z) None NORMAL.
Definition grandchild : Organization := org 3 (Some 2%Z) (Some 1%Z) AFFILIATED.
Definition other : Organization := org 4 None None NORMAL.
Definition sample_db : list Organization := [root; child; grandchild; other].

(** The form that edits [child], as [OrganizationForm.__init__] leaves it. *)
Definition child_kwargs : gmap string pyobj :=
  {[ "instance" := PyInstance child ]}.

Definition child_candidates : Field := mkField false (Some [root; other]).

Definition child_form : ModelForm :=
  mkModelForm child
    (<["parent" := child_candidates]>
       (<["replaced_by" := child_candidates]>
          (base_fields (OrganizationForm sample_db))))
    (model_to_dict child OrganizationForm_Meta_fields) None ∅.

(** The class the admin derives when [replaced_by] and [parent] are
    read-only, and the form of [child] it constructs. *)
Definition readonly_class : FormClass :=
  OrganizationForm_exclude sample_db ["replaced_by"; "parent"].

Definition readonly_form : ModelForm :=
  mkModelForm child (base_fields readonly_class)
    (model_to_dict child (Meta_fields readonly_class)) None ∅.

(** An inline form whose caller passes AFFILIATED both as the initial value
    and in the submitted data, and the [SubOrganizationForm] it constructs;
    and a form constructed without arguments. *)
Definition tampering_kwargs : gmap string pyobj :=
  {[ "initial" := PyDict {[ "internal_type" := VType AFFILIATED ]};
     "data" := PyDict {[ "internal_type" := VType AFFILIATED;
                         "name" := VStr "Branch" ]} ]}.

Definition tampered_form : ModelForm :=
  mkModelForm new_Organization (base_fields SubOrganizationForm_class)
    {[ "internal_type" := VType NORMAL ]}
    (Some {[ "internal_type" := VType AFFILIATED; "name" := VStr "Branch" ]}) ∅.

(** What the base constructor alone makes of the same arguments. *)
Definition untampered_form : ModelForm :=
  mkModelForm new_Organization (base_fields SubOrganizationForm_class)
    {[ "internal_type" := VType AFFILIATED ]}
    (Some {[ "internal_type" := VType AFFILIATED; "name" := VStr "Branch" ]}) ∅.

Definition plain_form : ModelForm :=
  mkModelForm new_Organization (base_fields SubOrganizationForm_class)
    {[ "internal_type" := VType NORMAL ]} None ∅.

(** An admin class that declares no read-only fields, the default of the
    framework's [ModelAdmin]. *)
Definition plain_admin : ModelAdmin := mkModelAdmin [].

(** A form whose cleaned data describe an affiliated organization without a
    parent. *)
Definition orphan_form : ModelForm :=
  mkModelForm new_Organization ∅ ∅ None
    {[ "internal_type" := VType AFFILIATED; "parent" := VNone ]}.

(** The inline form of the affiliated [grandchild], opened through
    [SubOrganizationForm]. *)
Definition grandchild_kwargs : gmap string pyobj :=
  {[ "instance" := PyInstance grandchild ]}.

Definition grandchild_form : ModelForm :=
  mkModelForm grandchild (base_fields SubOrganizationForm_class)
    (<["internal_type" := VType NORMAL]>
       (model_to_dict grandchild SubOrganizationForm_Meta_fields))
    None ∅.

(** The form that edits [grandchild], which has no children. *)
Definition leaf_candidates : Field := mkField false (Some [root; child; other]).

Definition leaf_form : ModelForm :=
  mkModelForm grandchild
    (<["parent" := leaf_candidates]>
       (<["replaced_by" := mkField false (Some [root; child; other])]>
          (base_fields (OrganizationForm sample_db))))
    (model_to_dict grandchild OrganizationForm_Meta_fields) None ∅.

Definition normal_admin : User := mkUser 7 "normal_admin" true false [].
Definition superuser : User := mkUser 1 "admin" true true [].

(** The staff user of the tests after the change-affiliated-organization
    permission is added. *)
Definition affiliated_admin : User :=
  user_permissions_add normal_admin change_affiliated_organization.
Definition another_admin : User := mkUser 9 "another_admin" true true [].

(** * Properties *)

(** ** The exception monad *)

Lemma bind_Ok {A B} (r : result A) (k : A → result B) (b : B) :
  r ≫= k = Ok b ↔ ∃ a, r = Ok a ∧ k a = Ok b.
Proof.
  destruct r as [a|e]; simpl.
  - split; [eauto | by intros (? & [= ->] & ?)].
  - split; [done | by intros (? & ? & ?)].
Qed.

Lemma getitem_Ok {V} (d : gmap string V) k v :
  getitem d k = Ok v ↔ d !! k = Some v.
Proof. unfold getitem. destruct (d !! k); split; congruence. Qed.

Lemma contains_true {V} (d : gmap string V) k :
  contains d k = true ↔ is_Some (d !! k).
Proof. unfold contains. by rewrite bool_decide_eq_true. Qed.

Lemma contains_false {V} (d : gmap string V) k :
  contains d k = false ↔ d !! k = None.
Proof.
  unfold contains. rewrite bool_decide_eq_false. symmetry. apply eq_None_not_Some.
Qed.

(** Splits a hypothesis [r ≫= k = Ok b] into its two steps. *)
Ltac inv_bind H :=
  let a := fresh "a" in
  let H1 := fresh H in
  apply bind_Ok in H as (a & H1 & H).

(** A key of 0 counts as no id. *)
Example truthy_zero : truthy (Some 0%Z) = false ∧ truthy (Some 1%Z) = true.
Proof. split; reflexivity. Qed.

(** ** Querysets *)

Lemma elem_of_filter_replaced_by__isnull qs o :
  o ∈ filter_replaced_by__isnull qs ↔ o ∈ qs ∧ replaced_by o = None.
Proof. unfold filter_replaced_by__isnull. rewrite list_elem_of_filter. tauto. Qed.

Lemma elem_of_exclude_id pk qs o :
  o ∈ exclude_id pk qs ↔ o ∈ qs ∧ id o ≠ pk.
Proof. unfold exclude_id. rewrite list_elem_of_filter. tauto. Qed.

Lemma elem_of_exclude_id__in pks qs o :
  o ∈ exclude_id__in pks qs ↔ o ∈ qs ∧ id o ∉ Some <$> pks.
Proof. unfold exclude_id__in. rewrite list_elem_of_filter. tauto. Qed.

Lemma elem_of_values_list_id qs k :
  k ∈ values_list_id qs ↔ ∃ o, o ∈ qs ∧ id o = Some k.
Proof.
  unfold values_list_id. rewrite list_elem_of_omap. naive_solver.
Qed.

Lemma Some_elem_of_values_list_id qs o :
  id o ∈ Some <$> values_list_id qs ↔ ∃ o', o' ∈ qs ∧ id o' = id o ∧ is_Some (id o).
Proof.
  rewrite list_elem_of_fmap. split.
  - intros (k & Hk & Hin). apply elem_of_values_list_id in Hin as (o' & ? & ?).
    exists o'. rewrite Hk. eauto.
  - intros (o' & Hin & Heq & [k Hk]). exists k. split; [done|].
    apply elem_of_values_list_id. exists o'. by rewrite Heq.
Qed.

Lemma get_descendants_subseteq db self b o :
  o ∈ get_descendants db self b → o ∈ db.
Proof.
  unfold get_descendants. destruct (id self); [|by inversion 1].
  rewrite list_elem_of_filter. tauto.
Qed.

(** With [include_self], every row that carries the instance's key is among
    the descendants. *)
Lemma get_descendants_self db self o k :
  id self = Some k → o ∈ db → id o = Some k → o ∈ get_descendants db self true.
Proof.
  intros Hk Hin Ho. unfold get_descendants. rewrite Hk.
  apply list_elem_of_filter. split; [by left | done].
Qed.

(** In a well-formed table a row is identified by its key. *)
Lemma wf_table_inj db o o' :
  wf_table db → o ∈ db → o' ∈ db → id o = id o' → o = o'.
Proof.
  intros [Hnd _]. induction db as [|x db IH]; [by inversion 1|].
  rewrite fmap_cons, NoDup_cons in Hnd. destruct Hnd as [Hx Hnd].
  rewrite !elem_of_cons. intros [->|Ho] [->|Ho'] Heq; auto.
  - destruct Hx. rewrite Heq. by apply list_elem_of_fmap_2.
  - destruct Hx. rewrite <- Heq. by apply list_elem_of_fmap_2.
Qed.

(** In a well-formed table, excluding the keys of some of its rows excludes
    exactly those rows. *)
Lemma exclude_id__in_rows db qs o :
  wf_table db → (∀ x, x ∈ qs → x ∈ db) → o ∈ db →
  id o ∉ Some <$> values_list_id qs ↔ o ∉ qs.
Proof.
  intros Hwf Hsub Ho. rewrite Some_elem_of_values_list_id. split.
  - intros Hn Hin. apply Hn. exists o. split_and!; [done..|].
    destruct Hwf as [_ Hall]. rewrite Forall_forall in Hall. by apply Hall.
  - intros Hn (o' & Hin & Heq & _). apply Hn.
    by rewrite (wf_table_inj db o o' Hwf Ho (Hsub _ Hin) (eq_sym Heq)).
Qed.

(** ** ModelForm construction *)

Lemma ModelForm__init__fields cls args kwargs self :
  ModelForm__init__ cls args kwargs = Ok self → fields self = base_fields cls.
Proof.
  unfold ModelForm__init__. intros H.
  inv_bind H. inv_bind H. inv_bind H. inv_bind H. by injection H as <-.
Qed.

(** A keyword argument that was bound keeps its value. *)
Lemma bind_params_kwarg params args kwargs b k v :
  bind_params params args kwargs = Ok b → kwargs !! k = Some v → b !! k = Some v.
Proof.
  unfold bind_params. intros H Hk. inv_bind H.
  repeat case_bool_decide; try discriminate.
  injection H as <-. by apply lookup_union_Some_l.
Qed.

(** ** OrganizationForm.__init__, block by block *)

Lemma restrict_replaced_by_eq db self :
  restrict_replaced_by db self =
  Ok (match fields self !! "replaced_by" with
      | Some f =>
          set_fields self
            (<["replaced_by" :=
                 set_queryset f
                   (if truthy (id (instance self))
                    then exclude_id (id (instance self))
                           (filter_replaced_by__isnull (objects db))
                    else filter_replaced_by__isnull (objects db))]>
               (fields self))
      | None => self
      end).
Proof.
  unfold restrict_replaced_by, contains, getitem.
  destruct (fields self !! "replaced_by") as [f|] eqn:E.
  - by rewrite bool_decide_true by eauto.
  - by rewrite bool_decide_false by (by intros [? ?]).
Qed.

Lemma restrict_parent_eq db self :
  restrict_parent db self =
  Ok (match fields self !! "parent" with
      | Some f =>
          if truthy (id (instance self))
          then set_fields self
                 (<["parent" :=
                      set_queryset f
                        (exclude_id__in
                           (values_list_id (get_descendants db (instance self) true))
                           (objects db))]>
                    (fields self))
          else self
      | None => self
      end).
Proof.
  unfold restrict_parent, contains, getitem.
  destruct (fields self !! "parent") as [f|] eqn:E.
  - rewrite bool_decide_true by eauto. simpl.
    by destruct (truthy (id (instance self))).
  - by rewrite bool_decide_false by (by intros [? ?]).
Qed.

Lemma restrict_replaced_by_instance db self self' :
  restrict_replaced_by db self = Ok self' → instance self' = instance self.
Proof.
  rewrite restrict_replaced_by_eq. intros [= <-].
  by destruct (fields self !! "replaced_by").
Qed.

Lemma restrict_parent_instance db self self' :
  restrict_parent db self = Ok self' → instance self' = instance self.
Proof.
  rewrite restrict_parent_eq. intros [= <-].
  destruct (fields self !! "parent"); [|done].
  by destruct (truthy (id (instance self))).
Qed.

(** Each block touches the one field it is about. *)
Lemma restrict_replaced_by_other db self self' k :
  restrict_replaced_by db self = Ok self' → k ≠ "replaced_by" →
  fields self' !! k = fields self !! k.
Proof.
  rewrite restrict_replaced_by_eq. intros [= <-] Hk.
  destruct (fields self !! "replaced_by"); [|done].
  simpl. by rewrite lookup_insert_ne.
Qed.

Lemma restrict_parent_other db self self' k :
  restrict_parent db self = Ok self' → k ≠ "parent" →
  fields self' !! k = fields self !! k.
Proof.
  rewrite restrict_parent_eq. intros [= <-] Hk.
  destruct (fields self !! "parent"); [|done].
  destruct (truthy (id (instance self))); [|done].
  simpl. by rewrite lookup_insert_ne.
Qed.

Lemma restrict_replaced_by_dom db self self' :
  restrict_replaced_by db self = Ok self' → dom (fields self') = dom (fields self).
Proof.
  rewrite restrict_replaced_by_eq. intros [= <-].
  destruct (fields self !! "replaced_by") eqn:E; [|done].
  simpl. apply dom_insert_lookup_L. by rewrite E.
Qed.

Lemma restrict_parent_dom db self self' :
  restrict_parent db self = Ok self' → dom (fields self') = dom (fields self).
Proof.
  rewrite restrict_parent_eq. intros [= <-].
  destruct (fields self !! "parent") eqn:E; [|done].
  destruct (truthy (id (instance self))); [|done].
  simpl. apply dom_insert_lookup_L. by rewrite E.
Qed.

(** The three steps of a successful construction. *)
Lemma OrganizationForm__init__steps db cls args kwargs form :
  OrganizationForm__init__ db cls args kwargs = Ok form ↔
  ∃ self0 self1,
    ModelForm__init__ cls args kwargs = Ok self0
    ∧ restrict_replaced_by db self0 = Ok self1
    ∧ restrict_parent db self1 = Ok form.
Proof.
  unfold OrganizationForm__init__. rewrite bind_Ok. split.
  - intros (self0 & H0 & H). apply bind_Ok in H as (self1 & H1 & H2). eauto.
  - intros (self0 & self1 & H0 & H1 & H2). exists self0. split; [done|].
    apply bind_Ok. eauto.
Qed.

(** ** OrganizationForm: the candidates of [replaced_by] and of [parent] *)

(** C3.  On every constructed [OrganizationForm] that has a [replaced_by]
    field, the field's queryset holds exactly the organizations whose own
    [replaced_by] is null, less the row of the edited organization when the
    instance has an id (in the sense of the source's test
    [if self.instance.id]). *)
Theorem replaced_by_candidates db cls args kwargs form f :
  OrganizationForm__init__ db cls args kwargs = Ok form →
  fields form !! "replaced_by" = Some f →
  ∃ qs, queryset f = Some qs
    ∧ ∀ o, o ∈ qs ↔
        o ∈ objects db ∧ replaced_by o = None
        ∧ (truthy (id (instance form)) = true → id o ≠ id (instance form)).
Proof.
  intros Hinit Hf.
  apply OrganizationForm__init__steps in Hinit as (s0 & s1 & H0 & H1 & H2).
  rewrite (restrict_parent_instance _ _ _ H2).
  rewrite (restrict_parent_other _ _ _ "replaced_by" H2) in Hf by done.
  rewrite (restrict_replaced_by_instance _ _ _ H1).
  rewrite restrict_replaced_by_eq in H1. injection H1 as <-.
  destruct (fields s0 !! "replaced_by") as [f0|] eqn:E; [|congruence].
  simpl in Hf. rewrite lookup_insert_eq in Hf. injection Hf as <-.
  eexists. split; [reflexivity|]. intros o.
  destruct (truthy (id (instance s0))).
  - rewrite elem_of_exclude_id, elem_of_filter_replaced_by__isnull. tauto.
  - rewrite elem_of_filter_replaced_by__isnull. intuition discriminate.
Qed.

Lemma child_form_init :
  OrganizationForm__init__ sample_db (OrganizationForm sample_db) [] child_kwargs
  = Ok child_form.
Proof. vm_compute. reflexivity. Qed.

(** The form that edits [child] over the sample table: the candidates are
    the root and the second root; the grandchild is replaced already and the
    child is the edited row. *)
Lemma replaced_by_candidates_witness :
  OrganizationForm__init__ sample_db (OrganizationForm sample_db) [] child_kwargs
  = Ok child_form
  ∧ fields child_form !! "replaced_by" = Some child_candidates
  ∧ ∃ qs, queryset child_candidates = Some qs
      ∧ ∀ o, o ∈ qs ↔
          o ∈ objects sample_db ∧ replaced_by o = None
          ∧ (truthy (id (instance child_form)) = true
             → id o ≠ id (instance child_form)).
Proof.
  assert (Hf : fields child_form !! "replaced_by" = Some child_candidates)
    by (vm_compute; reflexivity).
  split; [exact child_form_init|]. split; [exact Hf|].
  exact (replaced_by_candidates _ _ _ _ _ _ child_form_init Hf).
Defined.

(** C1, as the code has it.  On every constructed [OrganizationForm] that
    has a [parent] field: when the instance has an id (the source's test
    [if self.instance.id]), the field's queryset is all organizations less
    those whose key is the key of a descendant of the instance, itself
    included; so no row with the instance's key is a candidate, and on a
    well-formed table the candidates are exactly the rows that are not
    descendants of the instance.  When the instance has no id, the field is
    the class's field, untouched. *)
Theorem parent_candidates db cls args kwargs form f :
  OrganizationForm__init__ db cls args kwargs = Ok form →
  fields form !! "parent" = Some f →
  (truthy (id (instance form)) = true →
     ∃ qs, queryset f = Some qs
       ∧ (∀ o, o ∈ qs ↔
            o ∈ objects db
            ∧ id o ∉ Some <$> values_list_id
                               (get_descendants db (instance form) true))
       ∧ (∀ o, id o = id (instance form) → o ∉ qs)
       ∧ (wf_table db →
          ∀ o, o ∈ qs ↔
            o ∈ objects db ∧ o ∉ get_descendants db (instance form) true))
  ∧ (truthy (id (instance form)) = false → base_fields cls !! "parent" = Some f).
Proof.
  intros Hinit Hf.
  apply OrganizationForm__init__steps in Hinit as (s0 & s1 & H0 & H1 & H2).
  rewrite (restrict_parent_instance _ _ _ H2).
  pose proof (restrict_replaced_by_instance _ _ _ H1) as Hi.
  pose proof (restrict_replaced_by_other _ _ _ "parent" H1 ltac:(done)) as Hp.
  rewrite restrict_parent_eq in H2. injection H2 as <-.
  rewrite <- (ModelForm__init__fields _ _ _ _ H0), <- Hp.
  destruct (fields s1 !! "parent") as [f1|] eqn:E; [|congruence].
  destruct (truthy (id (instance s1))) eqn:Ht; split; try congruence.
  intros _. simpl in Hf. rewrite lookup_insert_eq in Hf. injection Hf as <-.
  eexists. split; [reflexivity|].
  assert (Hmem : ∀ o, o ∈ exclude_id__in
                        (values_list_id (get_descendants db (instance s1) true))
                        (objects db) ↔
                      o ∈ objects db
                      ∧ id o ∉ Some <$> values_list_id
                                         (get_descendants db (instance s1) true))
    by (intros o; apply elem_of_exclude_id__in).
  split_and!.
  - done.
  - intros o Ho Hin. apply Hmem in Hin as [Hdb Hn]. apply Hn.
    destruct (id (instance s1)) as [k|] eqn:Hk; [|done].
    apply Some_elem_of_values_list_id. exists o. split_and!; [|done|by eauto].
    by apply (get_descendants_self db (instance s1) o k).
  - intros Hwf o. rewrite Hmem. split; intros [Hdb Hn]; (split; [done|]).
    + by apply (exclude_id__in_rows db _ o Hwf
                  (get_descendants_subseteq db (instance s1) true) Hdb).
    + by apply (exclude_id__in_rows db _ o Hwf
                  (get_descendants_subseteq db (instance s1) true) Hdb).
Qed.

(** Settles a closed decidable proposition by evaluation. *)
Ltac by_evaluation :=
  match goal with
  | |- ?P => apply (bool_decide_unpack P); vm_compute; exact I
  end.

Lemma sample_db_wf : wf_table sample_db.
Proof. split; by_evaluation. Defined.

(** The form that edits [child] over the sample table: the candidate parents
    are the rows outside the subtree of [child]. *)
Lemma parent_candidates_witness :
  OrganizationForm__init__ sample_db (OrganizationForm sample_db) [] child_kwargs
  = Ok child_form
  ∧ fields child_form !! "parent" = Some child_candidates
  ∧ truthy (id (instance child_form)) = true
  ∧ ∃ qs, queryset child_candidates = Some qs
      ∧ (∀ o, id o = id (instance child_form) → o ∉ qs)
      ∧ ∀ o, o ∈ qs ↔
          o ∈ objects sample_db
          ∧ o ∉ get_descendants sample_db (instance child_form) true.
Proof.
  assert (Hf : fields child_form !! "parent" = Some child_candidates)
    by (vm_compute; reflexivity).
  assert (Ht : truthy (id (instance child_form)) = true) by reflexivity.
  split; [exact child_form_init|]. split; [exact Hf|]. split; [exact Ht|].
  destruct (parent_candidates _ _ _ _ _ _ child_form_init Hf) as [Hsome _].
  destruct (Hsome Ht) as (qs & Hqs & _ & Hself & Hrows).
  exists qs. split; [exact Hqs|]. split; [exact Hself|].
  exact (Hrows sample_db_wf).
Defined.

(** C1, as worded, fails: the claim ends "O can never be selected ... as the
    parent of any of its descendants".  In the sample table [child] is a
    descendant of [root], and on the form that edits [child] the root is a
    candidate parent (it is the parent [child] has). *)
Lemma parent_candidates_counterexample :
  child ∈ get_descendants sample_db root true
  ∧ OrganizationForm__init__ sample_db (OrganizationForm sample_db) []
      {[ "instance" := PyInstance child ]} = Ok child_form
  ∧ fields child_form !! "parent" = Some child_candidates
  ∧ queryset child_candidates = Some [root; other]
  ∧ root ∈ [root; other].
Proof.
  split; [by_evaluation|].
  split; [exact child_form_init|].
  split; [vm_compute; reflexivity|].
  split; [reflexivity|]. apply elem_of_cons. by left.
Qed.

(** ** OrganizationForm: fields left out of the form *)

(** C10.  Whenever [ModelForm.__init__] returns, [OrganizationForm.__init__]
    returns too, whatever fields the form has: it raises nothing of its own.
    The form has the same field names afterwards, every field other than
    [replaced_by] and [parent] is as the base constructor left it, and the
    block of a field that is absent is skipped and changes nothing: without
    [replaced_by] only the [parent] block acts, without [parent] only the
    [replaced_by] block, and without both the form is returned as
    constructed. *)
Theorem OrganizationForm__init__total db cls args kwargs self0 :
  ModelForm__init__ cls args kwargs = Ok self0 →
  (∃ form,
      OrganizationForm__init__ db cls args kwargs = Ok form
      ∧ dom (fields form) = dom (fields self0)
      ∧ ∀ k, k ≠ "replaced_by" → k ≠ "parent" →
             fields form !! k = fields self0 !! k)
  ∧ (fields self0 !! "replaced_by" = None →
     restrict_replaced_by db self0 = Ok self0
     ∧ OrganizationForm__init__ db cls args kwargs = restrict_parent db self0)
  ∧ (fields self0 !! "parent" = None →
     OrganizationForm__init__ db cls args kwargs = restrict_replaced_by db self0)
  ∧ (fields self0 !! "replaced_by" = None → fields self0 !! "parent" = None →
     OrganizationForm__init__ db cls args kwargs = Ok self0).
Proof.
  intros H0. unfold OrganizationForm__init__. rewrite H0. simpl.
  split_and!.
  - destruct (restrict_replaced_by db self0) as [self1|] eqn:H1;
      [|by rewrite restrict_replaced_by_eq in H1].
    destruct (restrict_parent db self1) as [form|] eqn:H2;
      [|by rewrite restrict_parent_eq in H2].
    exists form. split_and!.
    + done.
    + rewrite (restrict_parent_dom _ _ _ H2).
      apply (restrict_replaced_by_dom _ _ _ H1).
    + intros k Hr Hp.
      rewrite (restrict_parent_other _ _ _ k H2 Hp).
      apply (restrict_replaced_by_other _ _ _ k H1 Hr).
  - intros Er. by rewrite restrict_replaced_by_eq, Er.
  - intros Ep.
    destruct (restrict_replaced_by db self0) as [self1|] eqn:H1;
      [|by rewrite restrict_replaced_by_eq in H1].
    simpl. rewrite restrict_parent_eq.
    by rewrite (restrict_replaced_by_other _ _ _ "parent" H1), Ep.
  - intros Er Ep. rewrite restrict_replaced_by_eq, Er. simpl.
    by rewrite restrict_parent_eq, Ep.
Qed.

(** A form class without the two fields, as the admin derives it when both
    are read-only: construction for [child] succeeds and returns the form of
    the base constructor. *)
Lemma OrganizationForm__init__total_witness :
  ModelForm__init__ readonly_class [] child_kwargs = Ok readonly_form
  ∧ fields readonly_form !! "replaced_by" = None
  ∧ fields readonly_form !! "parent" = None
  ∧ OrganizationForm__init__ sample_db readonly_class [] child_kwargs
    = Ok readonly_form.
Proof.
  assert (H0 : ModelForm__init__ readonly_class [] child_kwargs = Ok readonly_form)
    by (vm_compute; reflexivity).
  assert (Hr : fields readonly_form !! "replaced_by" = None)
    by (vm_compute; reflexivity).
  assert (Hp : fields readonly_form !! "parent" = None)
    by (vm_compute; reflexivity).
  split; [exact H0|]. split; [exact Hr|]. split; [exact Hp|].
  exact (proj2 (proj2 (proj2
           (OrganizationForm__init__total sample_db _ _ _ _ H0))) Hr Hp).
Defined.

(** ** OrganizationForm.clean *)

(** C2.  [clean] raises [ValidationError] with the message "Affiliated
    organization must have a parent organization" (passed through
    [ugettext]) when the cleaned [internal_type] is [AFFILIATED] and the
    cleaned [parent] is [None]; in every other case it returns the cleaned
    data; so it raises exactly in the first case. *)
Theorem OrganizationForm_clean_spec (ugettext : string → string) (self : ModelForm) :
  let affiliated_without_parent :=
    dict_get (cleaned_data self) "internal_type" = VType AFFILIATED
    ∧ dict_get (cleaned_data self) "parent" = VNone in
  (affiliated_without_parent →
     OrganizationForm_clean ugettext self
     = Raise (ValidationError
                (ugettext "Affiliated organization must have a parent organization")))
  ∧ (¬ affiliated_without_parent →
     OrganizationForm_clean ugettext self = Ok (cleaned_data self))
  ∧ ((∃ e, OrganizationForm_clean ugettext self = Raise e)
     ↔ affiliated_without_parent).
Proof.
  simpl. unfold OrganizationForm_clean, ModelForm_clean.
  destruct (decide (dict_get (cleaned_data self) "internal_type" = VType AFFILIATED))
    as [Ht|Ht];
  destruct (decide (dict_get (cleaned_data self) "parent" = VNone)) as [Hp|Hp].
  - rewrite !bool_decide_true by done. simpl. split_and!; [done|tauto|].
    split; [done | eauto].
  - rewrite bool_decide_true, bool_decide_false by done. simpl.
    split_and!; [tauto|done|]. split; [by intros [? ?] | tauto].
  - rewrite bool_decide_false by done. simpl.
    split_and!; [tauto|done|]. split; [by intros [? ?] | tauto].
  - rewrite bool_decide_false by done. simpl.
    split_and!; [tauto|done|]. split; [by intros [? ?] | tauto].
Qed.

(** An affiliated organization submitted without a parent is rejected. *)
Lemma OrganizationForm_clean_spec_witness :
  dict_get (cleaned_data orphan_form) "internal_type" = VType AFFILIATED
  ∧ dict_get (cleaned_data orphan_form) "parent" = VNone
  ∧ OrganizationForm_clean (λ s, s) orphan_form
    = Raise (ValidationError
               "Affiliated organization must have a parent organization").
Proof.
  assert (Ht : dict_get (cleaned_data orphan_form) "internal_type" = VType AFFILIATED)
    by reflexivity.
  assert (Hp : dict_get (cleaned_data orphan_form) "parent" = VNone)
    by reflexivity.
  split; [exact Ht|]. split; [exact Hp|].
  exact (proj1 (OrganizationForm_clean_spec (λ s, s) orphan_form) (conj Ht Hp)).
Defined.

(** The two cases on concrete cleaned data: an affiliated organization
    without a parent, and one with the root as its parent. *)
Example OrganizationForm_clean_rejects :
  OrganizationForm_clean (λ s, s)
    (mkModelForm new_Organization ∅ ∅ None
       {[ "internal_type" := VType AFFILIATED; "parent" := VNone ]})
  = Raise (ValidationError "Affiliated organization must have a parent organization").
Proof. reflexivity. Qed.

Example OrganizationForm_clean_accepts :
  OrganizationForm_clean (λ s, s)
    (mkModelForm new_Organization ∅ ∅ None
       {[ "internal_type" := VType AFFILIATED; "parent" := VOrg 1 ]})
  = Ok {[ "internal_type" := VType AFFILIATED; "parent" := VOrg 1 ]}.
Proof. reflexivity. Qed.

(** ** SubOrganizationForm and AffiliatedOrganizationForm *)

(** The [initial] argument overrides the values of the instance. *)
Lemma ModelForm__init__initial cls args kwargs form d :
  ModelForm__init__ cls args kwargs = Ok form →
  kwargs !! "initial" = Some (PyDict d) →
  ∃ object_data, initial form = d ∪ object_data.
Proof.
  unfold ModelForm__init__. intros H Hk. inv_bind H.
  rewrite (bind_params_kwarg _ _ _ _ _ _ H0 Hk) in H. simpl in H.
  inv_bind H. inv_bind H. injection H as <-. simpl. eauto.
Qed.

(** After construction the initial [internal_type] is the class's default,
    whatever the caller passed. *)
Lemma SubOrganizationForm__init__initial cls args kwargs form :
  SubOrganizationForm__init__ cls args kwargs = Ok form →
  initial form !! "internal_type" = Some (VType (@default_internal_type cls)).
Proof.
  unfold SubOrganizationForm__init__. intros H. inv_bind H. inv_bind H.
  destruct a as [| | |d|]; try discriminate. injection H1 as <-.
  destruct (ModelForm__init__initial _ _ _ _ _ H (lookup_insert_eq _ _ _))
    as [od ->].
  apply lookup_union_Some_l, lookup_insert_eq.
Qed.

(** C4.  On every constructed [SubOrganizationForm] or
    [AffiliatedOrganizationForm], whatever the arguments of the constructor
    (the submitted data among them), [clean_internal_type] returns the
    class's default internal type: NORMAL for the first class, AFFILIATED for
    the second. *)
Theorem clean_internal_type_fixed cls args kwargs form :
  SubOrganizationForm__init__ cls args kwargs = Ok form →
  clean_internal_type form = Ok (VType (@default_internal_type cls))
  ∧ @default_internal_type SubOrganizationForm = NORMAL
  ∧ @default_internal_type AffiliatedOrganizationForm = AFFILIATED.
Proof.
  intros H. split; [|done]. unfold clean_internal_type.
  apply getitem_Ok. exact (SubOrganizationForm__init__initial _ _ _ _ H).
Qed.

Lemma tampered_form_init :
  SubOrganizationForm__init__ SubOrganizationForm [] tampering_kwargs
  = Ok tampered_form.
Proof. vm_compute. reflexivity. Qed.

Lemma plain_form_init :
  SubOrganizationForm__init__ SubOrganizationForm [] ∅ = Ok plain_form.
Proof. vm_compute. reflexivity. Qed.

(** AFFILIATED is submitted to a [SubOrganizationForm]; the cleaned value is
    NORMAL. *)
Lemma clean_internal_type_fixed_witness :
  SubOrganizationForm__init__ SubOrganizationForm [] tampering_kwargs
  = Ok tampered_form
  ∧ data tampered_form
    = Some {[ "internal_type" := VType AFFILIATED; "name" := VStr "Branch" ]}
  ∧ clean_internal_type tampered_form = Ok (VType NORMAL).
Proof.
  split; [exact tampered_form_init|]. split; [reflexivity|].
  exact (proj1 (clean_internal_type_fixed _ _ _ _ tampered_form_init)).
Defined.

(** C9.  Two constructions of one of the two classes, with any arguments,
    give the same cleaned [internal_type]: in both forms the initial
    [internal_type] is the class's default. *)
Theorem clean_internal_type_independent cls args1 kwargs1 args2 kwargs2 form1 form2 :
  SubOrganizationForm__init__ cls args1 kwargs1 = Ok form1 →
  SubOrganizationForm__init__ cls args2 kwargs2 = Ok form2 →
  clean_internal_type form1 = clean_internal_type form2
  ∧ initial form1 !! "internal_type" = Some (VType (@default_internal_type cls))
  ∧ initial form2 !! "internal_type" = Some (VType (@default_internal_type cls)).
Proof.
  intros H1 H2.
  apply SubOrganizationForm__init__initial in H1, H2.
  unfold clean_internal_type, getitem. by rewrite H1, H2.
Qed.

(** A construction with a tampered initial value and tampered data against
    one without arguments. *)
Lemma clean_internal_type_independent_witness :
  SubOrganizationForm__init__ SubOrganizationForm [] tampering_kwargs
  = Ok tampered_form
  ∧ SubOrganizationForm__init__ SubOrganizationForm [] ∅ = Ok plain_form
  ∧ clean_internal_type tampered_form = clean_internal_type plain_form.
Proof.
  split; [exact tampered_form_init|]. split; [exact plain_form_init|].
  exact (proj1 (clean_internal_type_independent _ _ _ _ _ _ _
                  tampered_form_init plain_form_init)).
Defined.

(** What the constructor does not accept: [initial] passed by position (it
    is then given twice), and an [initial] that is not a dictionary. *)
Example SubOrganizationForm__init__positional_initial :
  SubOrganizationForm__init__ SubOrganizationForm
    [PyNone; PyNone; PyNone; PyNone; PyDict ∅] ∅
  = Raise (TypeError "got multiple values for argument").
Proof. vm_compute. reflexivity. Qed.

Example SubOrganizationForm__init__initial_None :
  SubOrganizationForm__init__ SubOrganizationForm [] {[ "initial" := PyNone ]}
  = Raise (TypeError "object does not support item assignment").
Proof. vm_compute. reflexivity. Qed.

(** ** OrganizationAdmin.get_queryset *)

Lemma add_admin_user_id o u : id (add_admin_user o u) = id o.
Proof. unfold add_admin_user. by case_decide. Qed.

Lemma add_admin_user_member o u : user_id u ∈ admin_users (add_admin_user o u).
Proof.
  unfold add_admin_user. case_decide; [done|]. simpl. apply elem_of_cons. by left.
Qed.

Lemma elem_of_admin_users_add db k u o' :
  o' ∈ admin_users_add db k u ↔
  ∃ o, o ∈ db ∧ o' = if decide (id o = Some k) then add_admin_user o u else o.
Proof.
  unfold admin_users_add. rewrite list_elem_of_fmap.
  split; intros (o & ? & ?); exists o; done.
Qed.

(** Rows with another key are not touched by [admin_users_add]. *)
Lemma admin_users_add_other db k u o :
  id o ≠ Some k → o ∈ admin_users_add db k u ↔ o ∈ db.
Proof.
  intros Hk. rewrite elem_of_admin_users_add. split.
  - intros (o0 & Hin & ->). case_decide as Hd; [|done].
    rewrite add_admin_user_id in Hk. done.
  - intros Hin. exists o. split; [done|]. by rewrite decide_False.
Qed.

(** C5.  For a superuser [get_queryset] is all organizations.  For any other
    user it holds exactly the organizations whose [admin_users] contain the
    user; it is empty when no organization has the user as a member; and
    after the user is added to the [admin_users] of the organization with
    key [k], that organization's row is in the queryset, while the rows with
    other keys are in it as before. *)
Theorem get_queryset_scope db request :
  (is_superuser (user request) = true →
     OrganizationAdmin_get_queryset db request = objects db)
  ∧ (is_superuser (user request) = false →
     (∀ o, o ∈ OrganizationAdmin_get_queryset db request ↔
           o ∈ objects db ∧ user_id (user request) ∈ admin_users o)
     ∧ ((∀ o, o ∈ objects db → user_id (user request) ∉ admin_users o) →
        OrganizationAdmin_get_queryset db request = [])
     ∧ (∀ k o, o ∈ objects db → id o = Some k →
          add_admin_user o (user request)
          ∈ OrganizationAdmin_get_queryset
              (admin_users_add db k (user request)) request)
     ∧ (∀ k o, id o ≠ Some k →
          o ∈ OrganizationAdmin_get_queryset
                (admin_users_add db k (user request)) request
          ↔ o ∈ OrganizationAdmin_get_queryset db request)).
Proof.
  unfold OrganizationAdmin_get_queryset, objects. split.
  - by intros ->.
  - intros ->. split_and!.
    + intros o. rewrite list_elem_of_filter. tauto.
    + intros Hnone. induction db as [|x db IH]; [done|].
      rewrite filter_cons_False by (apply Hnone, elem_of_cons; by left).
      apply IH. intros o Ho. apply Hnone, elem_of_cons. by right.
    + intros k o Hin Hk. apply list_elem_of_filter. split.
      * apply add_admin_user_member.
      * apply elem_of_admin_users_add. exists o. split; [done|].
        by rewrite decide_True.
    + intros k o Hk. rewrite !list_elem_of_filter.
      by rewrite (admin_users_add_other db k (user request) o Hk).
Qed.

(** The staff user of the tests on the sample table: once added to the
    admins of the root, the user sees the root. *)
Lemma get_queryset_scope_witness :
  is_superuser (user (mkRequest normal_admin)) = false
  ∧ root ∈ objects sample_db
  ∧ id root = Some 1%Z
  ∧ add_admin_user root normal_admin
    ∈ OrganizationAdmin_get_queryset
        (admin_users_add sample_db 1 normal_admin) (mkRequest normal_admin).
Proof.
  assert (Hs : is_superuser (user (mkRequest normal_admin)) = false) by reflexivity.
  assert (Hin : root ∈ objects sample_db) by (apply elem_of_cons; by left).
  assert (Hk : id root = Some 1%Z) by reflexivity.
  split; [exact Hs|]. split; [exact Hin|]. split; [exact Hk|].
  exact (proj1 (proj2 (proj2
           (proj2 (get_queryset_scope sample_db (mkRequest normal_admin)) Hs)))
           1%Z root Hin Hk).
Defined.

(** The run of [test_get_queryset], on the sample table: all rows for the
    superuser, none for the new staff user, then one and two rows as the
    user is added to the admins of the root and of [other]. *)
Example test_get_queryset :
  OrganizationAdmin_get_queryset sample_db (mkRequest superuser) = sample_db
  ∧ OrganizationAdmin_get_queryset sample_db (mkRequest normal_admin) = []
  ∧ id <$> OrganizationAdmin_get_queryset
             (admin_users_add sample_db 1 normal_admin) (mkRequest normal_admin)
    = [Some 1%Z]
  ∧ id <$> OrganizationAdmin_get_queryset
             (admin_users_add (admin_users_add sample_db 1 normal_admin)
                4 normal_admin)
             (mkRequest normal_admin)
    = [Some 1%Z; Some 4%Z].
Proof. split_and!; reflexivity. Qed.

(** ** OrganizationAdmin.has_change_permission *)



(** The run of [test_has_change_permission], which passes no object. *)
Example test_has_change_permission :
  OrganizationAdmin_has_change_permission ModelAdmin_has_change_permission
    (mkRequest normal_admin) None = false
  ∧ OrganizationAdmin_has_change_permission ModelAdmin_has_change_permission
      (mkRequest (user_permissions_add normal_admin change_affiliated_organization))
      None = true.
Proof. split; reflexivity. Qed.

(** Per object, under the check of the framework: the permission opens the
    affiliated grandchild and not the root, and the model's own change
    permission opens the root and not the grandchild. *)
Example has_change_permission_per_object :
  OrganizationAdmin_has_change_permission ModelAdmin_has_change_permission
    (mkRequest affiliated_admin) (Some grandchild) = true
  ∧ OrganizationAdmin_has_change_permission ModelAdmin_has_change_permission
      (mkRequest affiliated_admin) (Some root) = false
  ∧ OrganizationAdmin_has_change_permission ModelAdmin_has_change_permission
      (mkRequest (user_permissions_add normal_admin change_organization))
      (Some root) = true
  ∧ OrganizationAdmin_has_change_permission ModelAdmin_has_change_permission
      (mkRequest (user_permissions_add normal_admin change_organization))
      (Some grandchild) = false
  ∧ OrganizationAdmin_has_change_permission ModelAdmin_has_change_permission
      (mkRequest superuser) (Some root) = true.
Proof. split_and!; reflexivity. Qed.

(** ** OrganizationAdmin.get_readonly_fields *)

(** The names of the form class's base fields are those of [Meta.fields]. *)
Lemma OrganizationForm_base_fields db f :
  is_Some (base_fields (OrganizationForm db) !! f) → f ∈ OrganizationForm_Meta_fields.
Proof.
  intros [fld Hf]. unfold OrganizationForm in Hf. cbn [base_fields] in Hf.
  apply elem_of_list_to_map_2 in Hf.
  apply list_elem_of_fmap in Hf as (g & [= -> _] & Hg). done.
Qed.

(** C7, as the code has it.  Without an object [get_readonly_fields] is the
    class's [readonly_fields]; so it is with an object for a user who holds
    the change-organization permission; with an object and a user without
    that permission it is the form's base fields, so that every field of
    [OrganizationForm] is read-only. *)
Theorem get_readonly_fields_spec self request obj :
  OrganizationAdmin_get_readonly_fields self request None = readonly_fields self
  ∧ (has_perm (user request) change_organization = true →
     OrganizationAdmin_get_readonly_fields self request (Some obj)
     = readonly_fields self)
  ∧ (has_perm (user request) change_organization = false →
     OrganizationAdmin_get_readonly_fields self request (Some obj)
     = OrganizationForm_Meta_fields
     ∧ ∀ db f, is_Some (base_fields (OrganizationForm db) !! f) →
               f ∈ OrganizationAdmin_get_readonly_fields self request (Some obj)).
Proof.
  unfold OrganizationAdmin_get_readonly_fields. split_and!.
  - done.
  - by intros ->.
  - intros ->. split; [done|]. intros db f. apply OrganizationForm_base_fields.
Qed.

(** The staff user of the tests, without the permission, on the root. *)
Lemma get_readonly_fields_spec_witness :
  has_perm (user (mkRequest normal_admin)) change_organization = false
  ∧ OrganizationAdmin_get_readonly_fields plain_admin (mkRequest normal_admin)
      (Some root) = OrganizationForm_Meta_fields.
Proof.
  assert (Hp : has_perm (user (mkRequest normal_admin)) change_organization = false)
    by reflexivity.
  split; [exact Hp|].
  exact (proj1 (proj2 (proj2
           (get_readonly_fields_spec plain_admin (mkRequest normal_admin) root))
           Hp)).
Defined.

Lemma not_broader_refl (a : list string) : ¬ broader a a.
Proof. intros [Hsub Hn]. by apply Hn. Qed.

(** C7, as worded, fails: the read-only set without an object is not the
    broader one.  For the staff user of [test_get_readonly_fields] and an
    admin class without read-only fields of its own, the set is empty
    without an object and all eleven form fields with one; and whatever the
    class declares, for a user who holds the change-organization permission
    the two sets are equal. *)
Lemma get_readonly_fields_counterexample :
  OrganizationAdmin_get_readonly_fields plain_admin (mkRequest normal_admin) None = []
  ∧ OrganizationAdmin_get_readonly_fields plain_admin (mkRequest normal_admin)
      (Some root) = OrganizationForm_Meta_fields
  ∧ ¬ broader
        (OrganizationAdmin_get_readonly_fields plain_admin (mkRequest normal_admin) None)
        (OrganizationAdmin_get_readonly_fields plain_admin (mkRequest normal_admin)
           (Some root))
  ∧ ¬ ∃ self, ∀ request obj,
        broader (OrganizationAdmin_get_readonly_fields self request None)
                (OrganizationAdmin_get_readonly_fields self request (Some obj)).
Proof.
  split_and!; [reflexivity..| |].
  - intros [Hsub _]. specialize (Hsub "parent"). simpl in Hsub.
    assert (Hin : "parent" ∈ OrganizationForm_Meta_fields) by by_evaluation.
    apply Hsub in Hin. by apply not_elem_of_nil in Hin.
  - intros [self H].
    specialize (H (mkRequest (user_permissions_add normal_admin change_organization))
                  root).
    by apply not_broader_refl in H.
Qed.

(** ** OrganizationAdmin.save_model *)

Lemma next_id_pos db : (1 ≤ next_id db)%Z.
Proof.
  unfold next_id. generalize (values_list_id db). intros l.
  assert (0 ≤ foldr Z.max 0 l)%Z; [|lia].
  induction l as [|x l IH]; simpl; lia.
Qed.

Lemma Model_save_created_by db obj :
  created_by (Model_save db obj).2 = created_by obj.
Proof.
  unfold Model_save. destruct (id obj); [|done]. by case_bool_decide.
Qed.

Lemma Model_save_last_modified_by db obj :
  last_modified_by (Model_save db obj).2 = last_modified_by obj.
Proof.
  unfold Model_save. destruct (id obj); [|done]. by case_bool_decide.
Qed.

(** A saved instance has a key: the one it had, or a new one. *)
Lemma Model_save_id db obj :
  id (Model_save db obj).2 = match id obj with
                             | Some k => Some k
                             | None => Some (next_id db)
                             end.
Proof.
  unfold Model_save. destruct (id obj) eqn:E; [|done]. by case_bool_decide.
Qed.

Lemma save_model_created_by db request obj :
  created_by (OrganizationAdmin_save_model db request obj).2 =
  if truthy (id obj) then created_by obj else Some (user_id (user request)).
Proof.
  unfold OrganizationAdmin_save_model. rewrite Model_save_created_by.
  by destruct (truthy (id obj)).
Qed.

Lemma save_model_last_modified_by db request obj :
  last_modified_by (OrganizationAdmin_save_model db request obj).2 =
  Some (user_id (user request)).
Proof.
  unfold OrganizationAdmin_save_model. by rewrite Model_save_last_modified_by.
Qed.

(** After a save the instance has an id, if it had one or had no key. *)
Lemma save_model_truthy db request obj :
  id obj = None ∨ truthy (id obj) = true →
  truthy (id (OrganizationAdmin_save_model db request obj).2) = true.
Proof.
  unfold OrganizationAdmin_save_model. rewrite Model_save_id.
  intros [Hn|Ht].
  - replace (truthy (id obj)) with false by by rewrite Hn.
    simpl. rewrite Hn. simpl. pose proof (next_id_pos db).
    apply negb_true_iff, Z.eqb_neq. lia.
  - rewrite Ht. simpl. by destruct (id obj).
Qed.

(** The last element of a non-empty list does not depend on the default. *)
Lemma last_cons_default {A} (x : A) l d d' :
  List.last (x :: l) d = List.last (x :: l) d'.
Proof.
  revert x. induction l as [|y l IH]; intros x; [done|].
  change (List.last (y :: l) d = List.last (y :: l) d'). apply IH.
Qed.

(** Later saves of an instance that has an id keep its creator; the last
    modifier is the user of the last save. *)
Lemma save_all_saved rs : ∀ db obj,
  truthy (id obj) = true →
  created_by (save_all db rs obj).2 = created_by obj
  ∧ (∀ r, last_modified_by obj = Some (user_id (user r)) →
          last_modified_by (save_all db rs obj).2
          = Some (user_id (user (List.last rs r)))).
Proof.
  induction rs as [|r rs IH]; intros db obj Ht; [done|].
  simpl save_all.
  destruct (IH (OrganizationAdmin_save_model db r obj).1
               (OrganizationAdmin_save_model db r obj).2
               (save_model_truthy db r obj (or_intror Ht))) as [Hc Hl].
  split.
  - rewrite Hc, save_model_created_by. by rewrite Ht.
  - intros r0 _. rewrite (Hl r (save_model_last_modified_by db r obj)).
    destruct rs as [|r' rs]; [done|].
    change (List.last (r :: r' :: rs) r0) with (List.last (r' :: rs) r0).
    by rewrite (last_cons_default r' rs r r0).
Qed.

(** C8.  Every save by [save_model] leaves the acting user as
    [last_modified_by].  The first save, of an instance without an id, also
    makes the acting user [created_by]; a save of an instance with an id
    leaves [created_by] as it was; so after a first save by one user and any
    run of further saves by other users, [created_by] is the first user and
    [last_modified_by] the last. *)
Theorem save_model_spec db request obj :
  last_modified_by (OrganizationAdmin_save_model db request obj).2
  = Some (user_id (user request))
  ∧ (truthy (id obj) = false →
     created_by (OrganizationAdmin_save_model db request obj).2
     = Some (user_id (user request)))
  ∧ (truthy (id obj) = true →
     created_by (OrganizationAdmin_save_model db request obj).2 = created_by obj)
  ∧ (id obj = None →
     ∀ later,
       created_by (save_all db (request :: later) obj).2
       = Some (user_id (user request))
       ∧ last_modified_by (save_all db (request :: later) obj).2
         = Some (user_id (user (List.last later request)))).
Proof.
  split_and!.
  - apply save_model_last_modified_by.
  - intros Ht. by rewrite save_model_created_by, Ht.
  - intros Ht. by rewrite save_model_created_by, Ht.
  - intros Hn later. simpl save_all.
    destruct (save_all_saved later
                (OrganizationAdmin_save_model db request obj).1
                (OrganizationAdmin_save_model db request obj).2
                (save_model_truthy db request obj (or_introl Hn))) as [Hc Hl].
    split.
    + rewrite Hc, save_model_created_by. by rewrite Hn.
    + apply Hl, save_model_last_modified_by.
Qed.

(** A new organization saved by the superuser, then by another admin. *)
Lemma save_model_spec_witness :
  id new_Organization = None
  ∧ created_by
      (save_all sample_db [mkRequest superuser; mkRequest another_admin]
         new_Organization).2
    = Some (user_id superuser)
  ∧ last_modified_by
      (save_all sample_db [mkRequest superuser; mkRequest another_admin]
         new_Organization).2
    = Some (user_id another_admin).
Proof.
  assert (Hn : id new_Organization = None) by reflexivity.
  split; [exact Hn|].
  exact (proj2 (proj2 (proj2
           (save_model_spec sample_db (mkRequest superuser) new_Organization)))
           Hn [mkRequest another_admin]).
Defined.

(** The run of [test_save_model]: a built organization saved by the
    superuser, then by another admin. *)
Example test_save_model :
  let first := OrganizationAdmin_save_model sample_db (mkRequest superuser)
                 new_Organization in
  let second := OrganizationAdmin_save_model first.1 (mkRequest another_admin)
                  first.2 in
  created_by first.2 = Some (user_id superuser)
  ∧ last_modified_by first.2 = Some (user_id superuser)
  ∧ created_by second.2 = Some (user_id superuser)
  ∧ last_modified_by second.2 = Some (user_id another_admin).
Proof. simpl. split_and!; reflexivity. Qed.

(** * Further properties of the forms *)

(** ** Calls: which parameters the positional arguments bind *)

Lemma bind_positional_Raise params args e :
  bind_positional params args = Raise e →
  e = TypeError "too many positional arguments".
Proof.
  revert params. induction args as [|a args IH]; intros [|p params] H;
    simpl in H; try congruence.
  destruct (bind_positional params args) eqn:E; simpl in H; [congruence|].
  injection H as <-. by apply (IH params).
Qed.

(** The positional arguments bind the first parameters, one each. *)
Lemma bind_positional_lookup params args pos k :
  bind_positional params args = Ok pos →
  is_Some (pos !! k) ↔ k ∈ take (length args) params.
Proof.
  revert params pos. induction args as [|a args IH]; intros [|p params] pos H;
    simpl in H; try congruence.
  - injection H as <-. rewrite lookup_empty. simpl. split.
    + by intros [? ?].
    + by intros ?%not_elem_of_nil.
  - injection H as <-. rewrite lookup_empty. simpl. split.
    + by intros [? ?].
    + by intros ?%not_elem_of_nil.
  - apply bind_Ok in H as (m & Hm & [= <-]). simpl.
    rewrite lookup_insert_is_Some, elem_of_cons, (IH _ _ Hm).
    destruct (decide (p = k)) as [->|]; [tauto|]. split.
    + intros [?|[_ ?]]; [done|by right].
    + intros [->|?]; [done|by right].
Qed.

Lemma initial_is_fifth n :
  5 ≤ n → "initial" ∈ take n ModelForm_params.
Proof.
  intros Hn. apply list_elem_of_lookup. exists 4.
  rewrite lookup_take_lt by lia. reflexivity.
Qed.

Lemma initial_not_in_first_four n :
  n ≤ 4 → "initial" ∉ take n ModelForm_params.
Proof.
  intros Hn Hin.
  assert (Hsub : "initial" ∈ take 4 ModelForm_params).
  { apply list_elem_of_lookup in Hin as [i Hi].
    apply list_elem_of_lookup. exists i.
    destruct (decide (i < n)) as [Hlt|Hge].
    - rewrite lookup_take_lt in Hi by done. by rewrite lookup_take_lt by lia.
    - by rewrite lookup_take_ge in Hi by lia. }
  assert (Hnot : "initial" ∉ take 4 ModelForm_params) by by_evaluation.
  done.
Qed.

(** ** SubOrganizationForm.__init__: what the constructor refuses *)

Lemma bind_Raise {A B} (r : result A) (k : A → result B) (e : exn) :
  r ≫= k = Raise e ↔ r = Raise e ∨ ∃ a, r = Ok a ∧ k a = Raise e.
Proof.
  destruct r as [a|e']; simpl; split.
  - intros H. right. by exists a.
  - intros [H|(a' & [= <-] & H)]; [discriminate | exact H].
  - intros [= ->]. by left.
  - intros [[= ->]|(a' & H & _)]; [reflexivity | discriminate].
Qed.

Lemma bind_params_Raise params args kwargs e :
  bind_params params args kwargs = Raise e → ∃ msg, e = TypeError msg.
Proof.
  unfold bind_params. intros [H|(pos & _ & H)]%bind_Raise.
  - apply bind_positional_Raise in H. eauto.
  - repeat case_bool_decide; try discriminate; injection H as <-; eauto.
Qed.

(** The base constructor raises nothing but [TypeError]. *)
Lemma ModelForm__init__Raise cls args kwargs e :
  ModelForm__init__ cls args kwargs = Raise e → ∃ msg, e = TypeError msg.
Proof.
  unfold ModelForm__init__.
  intros [H|(b & _ & H)]%bind_Raise; [by apply bind_params_Raise in H|].
  apply bind_Raise in H as [H|(io & _ & H)].
  { destruct (default PyNone (b !! "instance")); inversion H; eauto. }
  apply bind_Raise in H as [H|(od & _ & H)].
  { destruct (default PyNone (b !! "initial")); inversion H; eauto. }
  apply bind_Raise in H as [H|(d & _ & H)]; [|done].
  destruct (default PyNone (b !! "data")); inversion H; eauto.
Qed.

(** After lines 61-63 the keyword arguments always hold [initial], a
    dictionary with the default internal type. *)
Lemma SubOrganizationForm__init__eq cls args kwargs :
  SubOrganizationForm__init__ cls args kwargs =
  match default (PyDict ∅) (kwargs !! "initial") with
  | PyDict d =>
      ModelForm__init__ SubOrganizationForm_class args
        (<["initial" := PyDict (<["internal_type" :=
                                    VType (@default_internal_type cls)]> d)]> kwargs)
  | _ => Raise (TypeError "object does not support item assignment")
  end.
Proof.
  unfold SubOrganizationForm__init__, contains, getitem.
  destruct (kwargs !! "initial") as [o|] eqn:E.
  - rewrite bool_decide_true by eauto. rewrite E. simpl. by destruct o.
  - rewrite bool_decide_false by (by intros [? ?]).
    rewrite lookup_insert_eq. simpl. by rewrite insert_insert_eq.
Qed.

Lemma SubOrganizationForm__init__Raise cls args kwargs e :
  SubOrganizationForm__init__ cls args kwargs = Raise e → ∃ msg, e = TypeError msg.
Proof.
  rewrite SubOrganizationForm__init__eq.
  destruct (default (PyDict ∅) (kwargs !! "initial"));
    try (intros [= <-]; eauto).
  apply ModelForm__init__Raise.
Qed.

(** A successful binding gave no parameter twice. *)
Lemma bind_params_Ok_disjoint params args kwargs b pos k :
  bind_params params args kwargs = Ok b →
  bind_positional params args = Ok pos →
  is_Some (kwargs !! k) → pos !! k = None.
Proof.
  unfold bind_params. intros H Hp [v Hk]. rewrite Hp in H. simpl in H.
  repeat case_bool_decide; try discriminate.
  match goal with
  | Hall : map_Forall (λ k _, pos !! k = None) _ |- _ => exact (Hall k v Hk)
  end.
Qed.

Lemma ModelForm__init__Ok_bind cls args kwargs form :
  ModelForm__init__ cls args kwargs = Ok form →
  ∃ pos b, bind_positional ModelForm_params args = Ok pos
         ∧ bind_params ModelForm_params args kwargs = Ok b.
Proof.
  unfold ModelForm__init__. intros H. inv_bind H.
  pose proof H0 as Hb. unfold bind_params in H0. inv_bind H0. eauto.
Qed.

(** X1.  [initial] cannot be passed by position: with five or more
    positional arguments the constructor raises [TypeError], whatever the
    keyword arguments, because line 63 always passes [initial] by keyword
    as well. *)
Theorem SubOrganizationForm__init__positional_raises cls args kwargs :
  5 ≤ length args →
  ∃ msg, SubOrganizationForm__init__ cls args kwargs = Raise (TypeError msg).
Proof.
  intros Hlen.
  destruct (SubOrganizationForm__init__ cls args kwargs) as [form|e] eqn:H.
  - exfalso. rewrite SubOrganizationForm__init__eq in H.
    destruct (default (PyDict ∅) (kwargs !! "initial")); try discriminate.
    apply ModelForm__init__Ok_bind in H as (pos & b & Hp & Hb).
    pose proof (bind_params_Ok_disjoint _ _ _ _ _ "initial" Hb Hp) as Hnone.
    rewrite lookup_insert_eq in Hnone. specialize (Hnone ltac:(eauto)).
    destruct (proj2 (bind_positional_lookup _ _ _ "initial" Hp)
                (initial_is_fifth _ Hlen)) as [? ?].
    congruence.
  - apply SubOrganizationForm__init__Raise in H as [msg ->]. eauto.
Qed.

Lemma SubOrganizationForm__init__positional_raises_witness :
  5 ≤ length [PyNone; PyNone; PyNone; PyNone; PyDict ∅]
  ∧ ∃ msg, SubOrganizationForm__init__ AffiliatedOrganizationForm
             [PyNone; PyNone; PyNone; PyNone; PyDict ∅] ∅
           = Raise (TypeError msg).
Proof.
  assert (Hlen : 5 ≤ length [PyNone; PyNone; PyNone; PyNone; PyDict ∅])
    by (simpl; lia).
  split; [exact Hlen|].
  exact (SubOrganizationForm__init__positional_raises
           AffiliatedOrganizationForm _ ∅ Hlen).
Defined.

(** X2.  An [initial] keyword that is not a dictionary ([None], say, the
    default of the base constructor) makes the constructor raise
    [TypeError] at line 63, although the base constructor accepts the same
    arguments when it accepts them without [initial]. *)
Theorem SubOrganizationForm__init__initial_not_dict cls args kwargs o :
  kwargs !! "initial" = Some o →
  (∀ d, o ≠ PyDict d) →
  SubOrganizationForm__init__ cls args kwargs
  = Raise (TypeError "object does not support item assignment").
Proof.
  intros Hk Ho. rewrite SubOrganizationForm__init__eq, Hk. simpl.
  destruct o; try done. by destruct (Ho d).
Qed.

Lemma SubOrganizationForm__init__initial_not_dict_witness :
  ({[ "initial" := PyNone ]} : gmap string pyobj) !! "initial" = Some PyNone
  ∧ (∀ d, PyNone ≠ PyDict d)
  ∧ SubOrganizationForm__init__ SubOrganizationForm [] {[ "initial" := PyNone ]}
    = Raise (TypeError "object does not support item assignment").
Proof.
  assert (Hk : ({[ "initial" := PyNone ]} : gmap string pyobj) !! "initial"
               = Some PyNone) by reflexivity.
  assert (Ho : ∀ d, PyNone ≠ PyDict d) by (intros d; discriminate).
  split; [exact Hk|]. split; [exact Ho|].
  exact (SubOrganizationForm__init__initial_not_dict
           SubOrganizationForm [] _ PyNone Hk Ho).
Defined.

(** ** SubOrganizationForm.__init__: what the constructor passes on *)

(** A keyword argument added for a parameter no positional argument binds
    is bound like the others. *)
Lemma bind_params_insert params args kwargs b pos k v :
  bind_params params args kwargs = Ok b →
  bind_positional params args = Ok pos →
  k ∈ params → pos !! k = None →
  bind_params params args (<[k := v]> kwargs) = Ok (<[k := v]> b).
Proof.
  intros H Hp Hin Hnone. unfold bind_params in H. rewrite Hp in H. simpl in H.
  repeat case_bool_decide; try discriminate. injection H as <-.
  unfold bind_params. rewrite Hp. simpl.
  rewrite !bool_decide_true by (by apply map_Forall_insert_2).
  by rewrite insert_union_l.
Qed.

Lemma bind_params_lookup params args kwargs b pos k :
  bind_params params args kwargs = Ok b →
  bind_positional params args = Ok pos →
  pos !! k = None → b !! k = kwargs !! k.
Proof.
  unfold bind_params. intros H Hp Hnone. rewrite Hp in H. simpl in H.
  repeat case_bool_decide; try discriminate. injection H as <-.
  rewrite lookup_union. rewrite Hnone. by destruct (kwargs !! k).
Qed.

(** X3.  With at most four positional arguments and an [initial] keyword
    that is absent or a dictionary, the constructor succeeds whenever the
    base constructor does on the same arguments, and its form has the same
    instance, the same fields and the same initial values but for one
    entry: the initial [internal_type] is the class's default.  (Line 63
    writes that entry into the caller's own dictionary; of other uses of
    that dictionary, the submitted data among them, nothing is said.) *)
Theorem SubOrganizationForm__init__overrides cls args kwargs d form0 :
  length args ≤ 4 →
  default (PyDict ∅) (kwargs !! "initial") = PyDict d →
  ModelForm__init__ SubOrganizationForm_class args kwargs = Ok form0 →
  ∃ form,
    SubOrganizationForm__init__ cls args kwargs = Ok form
    ∧ instance form = instance form0
    ∧ fields form = fields form0
    ∧ initial form
      = <["internal_type" := VType (@default_internal_type cls)]> (initial form0).
Proof.
  intros Hlen Hd H0.
  assert (Heq : SubOrganizationForm__init__ cls args kwargs
                = Ok (mkModelForm (instance form0) (fields form0)
                        (<["internal_type" := VType (@default_internal_type cls)]>
                           (initial form0))
                        (data form0) (cleaned_data form0))).
  { rewrite SubOrganizationForm__init__eq, Hd.
    destruct (ModelForm__init__Ok_bind _ _ _ _ H0) as (pos & b & Hp & Hb).
    assert (Hnone : pos !! "initial" = None).
    { apply eq_None_not_Some. rewrite (bind_positional_lookup _ _ _ _ Hp).
      by apply initial_not_in_first_four. }
    assert (Hin : "initial" ∈ ModelForm_params) by by_evaluation.
    pose proof (bind_params_lookup _ _ _ _ _ "initial" Hb Hp Hnone) as Hbi.
    unfold ModelForm__init__ in *.
    rewrite (bind_params_insert _ _ _ _ _ _ _ Hb Hp Hin Hnone).
    rewrite Hb in H0. cbn [mbind result_bind] in *.
    rewrite (lookup_insert_ne _ "initial" "instance") by by_evaluation.
    rewrite (lookup_insert_ne _ "initial" "data") by by_evaluation.
    rewrite lookup_insert_eq. rewrite Hbi in H0.
    destruct (kwargs !! "initial") as [o'|] eqn:E;
      cbn [from_option Datatypes.id] in Hd, H0 |- *;
      [subst o'|injection Hd as <-];
      (destruct (default PyNone (b !! "instance")); try discriminate;
       cbn [mbind result_bind] in *;
       destruct (default PyNone (b !! "data")); try discriminate;
       cbn [mbind result_bind] in *; injection H0 as <-;
       cbn [instance fields initial data cleaned_data fst snd];
       rewrite <- insert_union_l, ?(left_id_L ∅ (∪)); reflexivity). }
  eexists. split; [exact Heq|]. done.
Qed.

Lemma SubOrganizationForm__init__overrides_witness :
  length ([] : list pyobj) ≤ 4
  ∧ default (PyDict ∅) (tampering_kwargs !! "initial")
    = PyDict {[ "internal_type" := VType AFFILIATED ]}
  ∧ ModelForm__init__ SubOrganizationForm_class [] tampering_kwargs
    = Ok untampered_form
  ∧ ∃ form,
      SubOrganizationForm__init__ SubOrganizationForm [] tampering_kwargs = Ok form
      ∧ instance form = instance untampered_form
      ∧ fields form = fields untampered_form
      ∧ initial form
        = <["internal_type" := VType NORMAL]> (initial untampered_form).
Proof.
  assert (Hlen : length ([] : list pyobj) ≤ 4) by (simpl; lia).
  assert (Hd : default (PyDict ∅) (tampering_kwargs !! "initial")
               = PyDict {[ "internal_type" := VType AFFILIATED ]})
    by (vm_compute; reflexivity).
  assert (H0 : ModelForm__init__ SubOrganizationForm_class [] tampering_kwargs
               = Ok untampered_form)
    by (vm_compute; reflexivity).
  split; [exact Hlen|]. split; [exact Hd|]. split; [exact H0|].
  exact (SubOrganizationForm__init__overrides SubOrganizationForm _ _ _ _
           Hlen Hd H0).
Defined.

(** X4.  For a form bound to an instance, the initial values are, in order
    of precedence: the class's default internal type, then the caller's
    [initial] values, then the instance's own columns.  The instance's own
    internal type never shows. *)
Theorem SubOrganizationForm__init__instance cls args kwargs d o form :
  SubOrganizationForm__init__ cls args kwargs = Ok form →
  default (PyDict ∅) (kwargs !! "initial") = PyDict d →
  kwargs !! "instance" = Some (PyInstance o) →
  instance form = o
  ∧ initial form
    = <["internal_type" := VType (@default_internal_type cls)]>
        (d ∪ model_to_dict o SubOrganizationForm_Meta_fields).
Proof.
  intros H Hd Hi. rewrite SubOrganizationForm__init__eq, Hd in H.
  unfold ModelForm__init__ in H. inv_bind H.
  rewrite (bind_params_kwarg _ _ _ _ "instance" (PyInstance o) H0) in H
    by (by rewrite lookup_insert_ne by by_evaluation).
  rewrite (bind_params_kwarg _ _ _ _ "initial" _ H0 (lookup_insert_eq _ _ _)) in H.
  cbn [mbind result_bind from_option Datatypes.id] in H.
  inv_bind H. injection H as <-.
  cbn [instance initial fst snd]. by rewrite insert_union_l.
Qed.

Lemma SubOrganizationForm__init__instance_witness :
  SubOrganizationForm__init__ SubOrganizationForm [] grandchild_kwargs
  = Ok grandchild_form
  ∧ default (PyDict ∅) (grandchild_kwargs !! "initial") = PyDict ∅
  ∧ grandchild_kwargs !! "instance" = Some (PyInstance grandchild)
  ∧ internal_type grandchild = AFFILIATED
  ∧ instance grandchild_form = grandchild
  ∧ initial grandchild_form
    = <["internal_type" := VType NORMAL]>
        (∅ ∪ model_to_dict grandchild SubOrganizationForm_Meta_fields).
Proof.
  assert (H : SubOrganizationForm__init__ SubOrganizationForm [] grandchild_kwargs
              = Ok grandchild_form) by (vm_compute; reflexivity).
  assert (Hd : default (PyDict ∅) (grandchild_kwargs !! "initial") = PyDict ∅)
    by reflexivity.
  assert (Hi : grandchild_kwargs !! "instance" = Some (PyInstance grandchild))
    by reflexivity.
  split; [exact H|]. split; [exact Hd|]. split; [exact Hi|].
  split; [reflexivity|].
  exact (SubOrganizationForm__init__instance SubOrganizationForm _ _ _ _ _
           H Hd Hi).
Defined.

(** ** OrganizationForm.__init__: errors, frame and order of the blocks *)

(** X5.  The constructor raises exactly when the base constructor raises,
    and then the same exception: lines 23-34 add no error of their own and
    hide none. *)
Theorem OrganizationForm__init__raises db cls args kwargs e :
  OrganizationForm__init__ db cls args kwargs = Raise e
  ↔ ModelForm__init__ cls args kwargs = Raise e.
Proof.
  unfold OrganizationForm__init__.
  destruct (ModelForm__init__ cls args kwargs) as [self0|e0]; [|done].
  cbn [mbind result_bind]. rewrite restrict_replaced_by_eq.
  cbn [mbind result_bind]. rewrite restrict_parent_eq. done.
Qed.

(** X6.  The constructor changes nothing of the form but the querysets of
    [replaced_by] and [parent]: the instance, the initial values and the
    submitted data are those of the base constructor, and every field keeps
    its [required] flag. *)
Theorem OrganizationForm__init__frame db cls args kwargs self0 form :
  ModelForm__init__ cls args kwargs = Ok self0 →
  OrganizationForm__init__ db cls args kwargs = Ok form →
  instance form = instance self0
  ∧ initial form = initial self0
  ∧ data form = data self0
  ∧ cleaned_data form = cleaned_data self0
  ∧ ∀ k, required <$> fields form !! k = required <$> fields self0 !! k.
Proof.
  intros H0 H. unfold OrganizationForm__init__ in H. rewrite H0 in H.
  cbn [mbind result_bind] in H. rewrite restrict_replaced_by_eq in H.
  cbn [mbind result_bind] in H. rewrite restrict_parent_eq in H.
  injection H as <-.
  set (self1 := match fields self0 !! "replaced_by" with
                | Some f => set_fields self0 _
                | None => self0
                end).
  assert (H1 : instance self1 = instance self0 ∧ initial self1 = initial self0
               ∧ data self1 = data self0 ∧ cleaned_data self1 = cleaned_data self0
               ∧ ∀ k, required <$> fields self1 !! k = required <$> fields self0 !! k).
  { subst self1. destruct (fields self0 !! "replaced_by") as [f|] eqn:E; [|done].
    split_and!; try done. intros k. cbn [fields set_fields].
    destruct (decide (k = "replaced_by")) as [->|Hk].
    - by rewrite lookup_insert_eq, E.
    - by rewrite lookup_insert_ne. }
  destruct H1 as (Hi & Hini & Hd & Hc & Hr). clearbody self1.
  rewrite <- Hi, <- Hini, <- Hd, <- Hc. setoid_rewrite <- Hr.
  destruct (fields self1 !! "parent") as [f|] eqn:E; [|done].
  destruct (truthy (id (instance self1))); [|done].
  split_and!; try done. intros k. cbn [fields set_fields].
  destruct (decide (k = "parent")) as [->|Hk].
  - by rewrite lookup_insert_eq, E.
  - by rewrite lookup_insert_ne.
Qed.

Lemma OrganizationForm__init__frame_witness :
  ∃ self0,
    ModelForm__init__ (OrganizationForm sample_db) [] child_kwargs = Ok self0
    ∧ OrganizationForm__init__ sample_db (OrganizationForm sample_db) []
        child_kwargs = Ok child_form
    ∧ instance child_form = instance self0
    ∧ initial child_form = initial self0
    ∧ data child_form = data self0
    ∧ cleaned_data child_form = cleaned_data self0
    ∧ ∀ k, required <$> fields child_form !! k = required <$> fields self0 !! k.
Proof.
  exists (mkModelForm child (base_fields (OrganizationForm sample_db))
            (model_to_dict child OrganizationForm_Meta_fields) None ∅).
  assert (H0 : ModelForm__init__ (OrganizationForm sample_db) [] child_kwargs
               = Ok (mkModelForm child (base_fields (OrganizationForm sample_db))
                       (model_to_dict child OrganizationForm_Meta_fields) None ∅))
    by (vm_compute; reflexivity).
  split; [exact H0|]. split; [exact child_form_init|].
  exact (OrganizationForm__init__frame _ _ _ _ _ _ H0 child_form_init).
Defined.

(** X7.  The two blocks of the constructor do not depend on their order:
    restricting [parent] first and [replaced_by] second gives the same
    form. *)
Theorem restrict_blocks_commute db self :
  restrict_replaced_by db self ≫= restrict_parent db
  = restrict_parent db self ≫= restrict_replaced_by db.
Proof.
  rewrite restrict_replaced_by_eq, restrict_parent_eq.
  cbn [mbind result_bind]. rewrite restrict_replaced_by_eq, restrict_parent_eq.
  f_equal.
  destruct (fields self !! "replaced_by") as [f|] eqn:Er;
    destruct (fields self !! "parent") as [g|] eqn:Ep;
    destruct (truthy (id (instance self))) eqn:Ht;
    cbn [fields set_fields instance];
    rewrite ?lookup_insert_ne by by_evaluation;
    rewrite ?Er, ?Ep, ?Ht; try reflexivity.
  unfold set_fields. cbn [instance fields initial data cleaned_data].
  f_equal. apply insert_insert_ne. by_evaluation.
Qed.

(** ** OrganizationForm.clean: keys missing from the cleaned data *)

(** [clean] reads both keys with [get]: when [internal_type] is missing
    from the cleaned data (the field failed its own validation) it raises
    nothing; when [parent] is missing (the field is not in the form, or
    failed) and the type is AFFILIATED it raises, whatever parent the
    instance has. *)
Theorem OrganizationForm_clean_missing_keys (ugettext : string → string) self :
  (cleaned_data self !! "internal_type" = None →
     OrganizationForm_clean ugettext self = Ok (cleaned_data self))
  ∧ (cleaned_data self !! "parent" = None →
     cleaned_data self !! "internal_type" = Some (VType AFFILIATED) →
     OrganizationForm_clean ugettext self
     = Raise (ValidationError
                (ugettext "Affiliated organization must have a parent organization"))).
Proof.
  unfold OrganizationForm_clean, ModelForm_clean, dict_get. split.
  - intros ->. reflexivity.
  - intros -> ->. reflexivity.
Qed.

Lemma OrganizationForm_clean_missing_keys_witness :
  cleaned_data
    (mkModelForm grandchild ∅ ∅ None {[ "internal_type" := VType AFFILIATED ]})
    !! "parent" = None
  ∧ parent grandchild = Some 2%Z
  ∧ OrganizationForm_clean (λ s, s)
      (mkModelForm grandchild ∅ ∅ None {[ "internal_type" := VType AFFILIATED ]})
    = Raise (ValidationError
               "Affiliated organization must have a parent organization").
Proof.
  split; [reflexivity|]. split; [reflexivity|].
  exact (proj2 (OrganizationForm_clean_missing_keys (λ s, s)
                  (mkModelForm grandchild ∅ ∅ None
                     {[ "internal_type" := VType AFFILIATED ]}))
           eq_refl eq_refl).
Defined.

(** ** The parent links as a walk *)

Lemma walk_None next n : walk next n None = [].
Proof. by destruct n. Qed.

Lemma ancestor_ids_walk db n q :
  ancestor_ids db n q = walk (parent_of db) n q.
Proof.
  revert q. induction n as [|n IH]; intros [j|]; try reflexivity.
  simpl. unfold parent_of. destruct (get_by_id db j) as [o|].
  - by rewrite IH.
  - by rewrite walk_None.
Qed.

(** A shorter walk is the beginning of a longer one. *)
Lemma walk_take next m n q :
  m ≤ n → walk next m q = take m (walk next n q).
Proof.
  revert n q. induction m as [|m IH]; intros n q Hle; [by rewrite take_0|].
  destruct n as [|n]; [lia|]. destruct q as [j|]; [|done].
  simpl. f_equal. apply IH. lia.
Qed.

Lemma walk_mono next m n q k :
  m ≤ n → k ∈ walk next m q → k ∈ walk next n q.
Proof.
  intros Hle. rewrite (walk_take next m n q Hle).
  intros (i & Hi & _)%elem_of_take. apply list_elem_of_lookup. eauto.
Qed.

(** What is above an ancestor is above. *)
Lemma walk_trans next n m q k x :
  k ∈ walk next n q → x ∈ walk next m (next k) → x ∈ walk next (n + m) q.
Proof.
  revert q. induction n as [|n IH]; intros q Hk Hx.
  - destruct q; by apply not_elem_of_nil in Hk.
  - destruct q as [j|]; [|by apply not_elem_of_nil in Hk].
    simpl in *. apply elem_of_cons in Hk as [->|Hk]; apply elem_of_cons; right.
    + apply (walk_mono next m (n + m)); [lia | done].
    + by apply IH.
Qed.

(** A walk that does not meet [k] does not see a change of the successor
    of [k]. *)
Lemma walk_agree next next' n q k :
  (∀ j, j ≠ k → next' j = next j) →
  k ∉ walk next n q → walk next' n q = walk next n q.
Proof.
  intros Hagree. revert q. induction n as [|n IH]; intros q Hk; [done|].
  destruct q as [j|]; [|done]. simpl in *.
  apply not_elem_of_cons in Hk as [Hne Hk].
  rewrite Hagree by done. f_equal. by apply IH.
Qed.

(** After the successor of [k] is changed to [p], a walk is the old walk up
    to [k], and from there a walk from [p]. *)
Lemma walk_redirect next next' n q k p x :
  (∀ j, j ≠ k → next' j = next j) → next' k = Some p →
  x ∈ walk next' n q →
  x ∈ walk next n q ∨ (k ∈ walk next n q ∧ x ∈ walk next' n (Some p)).
Proof.
  intros Hagree Hk. revert q. induction n as [|n IH]; intros q Hx.
  - destruct q; by apply not_elem_of_nil in Hx.
  - destruct q as [j|]; [|by apply not_elem_of_nil in Hx].
    cbn [walk] in Hx. apply elem_of_cons in Hx as [->|Hx].
    { left. apply elem_of_cons. by left. }
    destruct (decide (j = k)) as [->|Hne].
    + right. split; [apply elem_of_cons; by left|].
      rewrite Hk in Hx. apply (walk_mono next' n (S n)); [lia | done].
    + rewrite Hagree in Hx by done. destruct (IH _ Hx) as [Hl|[Hl Hr]].
      * left. apply elem_of_cons. by right.
      * right. split; [apply elem_of_cons; by right|].
        apply (walk_mono next' n (S n)); [lia | done].
Qed.

Lemma walk_NoDup next n q :
  walk_acyclic next → NoDup (walk next n q).
Proof.
  intros Hac. revert q. induction n as [|n IH]; intros q; [constructor|].
  destruct q as [j|]; [|constructor]. simpl.
  apply NoDup_cons. split; [apply Hac | apply IH].
Qed.

(** Every key of a walk but the last has a successor. *)
Lemma walk_lookup_next next n q i x :
  walk next n q !! i = Some x → is_Some (walk next n q !! S i) →
  is_Some (next x).
Proof.
  revert q i. induction n as [|n IH]; intros q i Hi Hs.
  - by destruct q.
  - destruct q as [j|]; [|done]. simpl in *. destruct i as [|i].
    + injection Hi as ->. simpl in Hs.
      destruct (next x); [eauto|]. rewrite walk_None in Hs. by destruct Hs.
    + simpl in Hi, Hs. by apply (IH (next j) i).
Qed.

(** On finitely many keys without a cycle, a walk of as many steps as there
    are keys meets every key that any walk meets. *)
Lemma walk_enough next (keys : list Z) n q k :
  walk_acyclic next →
  (∀ j, is_Some (next j) → j ∈ keys) → k ∈ keys →
  k ∈ walk next n q → k ∈ walk next (length keys) q.
Proof.
  intros Hac Hkeys Hk Hin.
  destruct (decide (n ≤ length keys)) as [Hle|Hgt];
    [by apply (walk_mono next n)|].
  apply list_elem_of_lookup in Hin as [i Hi].
  assert (Hlen : S i ≤ length keys).
  { assert (Hnd : NoDup (take (S i) (walk next n q))).
    { apply (sublist_NoDup _ (walk next n q)); [by apply walk_NoDup|].
      apply sublist_take. }
    assert (Hsub : ∀ x, x ∈ take (S i) (walk next n q) → x ∈ keys).
    { intros x (i' & Hi' & Hlt)%elem_of_take.
      destruct (decide (i' = i)) as [->|Hne].
      - rewrite Hi in Hi'. by injection Hi' as <-.
      - apply Hkeys. apply (walk_lookup_next next n q i' x Hi').
        apply lookup_lt_is_Some. apply lookup_lt_Some in Hi. lia. }
    pose proof (submseteq_length _ _ (NoDup_submseteq _ _ Hnd Hsub)) as Hl.
    rewrite length_take_le in Hl; [done|].
    apply lookup_lt_Some in Hi. lia. }
  rewrite (walk_take next (length keys) n q) by lia.
  apply elem_of_take. exists i. split; [done | lia].
Qed.

(** ** Tables: rows by key, and acyclic parent links *)

Lemma get_by_id_Some db k o :
  get_by_id db k = Some o → o ∈ db ∧ id o = Some k.
Proof.
  unfold get_by_id. intros H%head_Some_elem_of.
  apply list_elem_of_filter in H. tauto.
Qed.

Lemma get_by_id_wf db k o :
  wf_table db → o ∈ db → id o = Some k → get_by_id db k = Some o.
Proof.
  intros Hwf Hin Hk. unfold get_by_id.
  destruct (head (filter (λ o, id o = Some k) db)) as [o'|] eqn:E.
  - destruct (get_by_id_Some db k o' E) as [Hin' Hk'].
    f_equal. apply (wf_table_inj db); [done..|congruence].
  - apply head_None in E.
    assert (Ho : o ∈ filter (λ o, id o = Some k) db)
      by (by apply list_elem_of_filter).
    rewrite E in Ho. by apply not_elem_of_nil in Ho.
Qed.

Lemma parent_of_row db k o :
  wf_table db → o ∈ db → id o = Some k → parent_of db k = parent o.
Proof. intros Hwf Hin Hk. unfold parent_of. by rewrite (get_by_id_wf db k o). Qed.

Lemma parent_of_Some db j p :
  parent_of db j = Some p → ∃ o, o ∈ db ∧ id o = Some j ∧ parent o = Some p.
Proof.
  unfold parent_of. destruct (get_by_id db j) as [o|] eqn:E; [|done].
  intros Hp. exists o. destruct (get_by_id_Some db j o E). done.
Qed.

Lemma values_list_id_length db : length (values_list_id db) ≤ length db.
Proof.
  unfold values_list_id. induction db as [|o db IH]; [done|].
  change (omap id (o :: db))
    with (match id o with Some y => y :: omap id db | None => omap id db end).
  destruct (id o); simpl; lia.
Qed.

Lemma acyclic_walk db : acyclic db → walk_acyclic (parent_of db).
Proof.
  intros Hac j n. unfold parent_of at 2.
  destruct (get_by_id db j) as [o|] eqn:E.
  - destruct (get_by_id_Some db j o E) as [Hin Hj].
    rewrite <- ancestor_ids_walk. by apply (Hac o).
  - rewrite walk_None. apply not_elem_of_nil.
Qed.

(** In an acyclic table a walk of as many steps as there are rows meets
    every ancestor: the bound in [get_descendants] loses nothing. *)
Lemma ancestor_ids_enough db n q k :
  acyclic db → k ∈ values_list_id db →
  k ∈ ancestor_ids db n q → k ∈ ancestor_ids db (length db) q.
Proof.
  intros Hac Hk. rewrite !ancestor_ids_walk. intros Hin.
  apply (walk_mono _ (length (values_list_id db)));
    [apply values_list_id_length|].
  apply (walk_enough _ _ n); [by apply acyclic_walk| |done..].
  intros j [p Hp]. apply parent_of_Some in Hp as (o & Hin' & Hj & _).
  apply elem_of_values_list_id. eauto.
Qed.

(** A table whose parent keys are below the keys of their rows is
    acyclic. *)
Lemma acyclic_decreasing db :
  (∀ o j p, o ∈ db → id o = Some j → parent o = Some p → (p < j)%Z) →
  acyclic db.
Proof.
  intros Hdec.
  assert (Hle : ∀ n p x, x ∈ ancestor_ids db n (Some p) → (x ≤ p)%Z).
  { induction n as [|n IH]; intros p x Hx; [by apply not_elem_of_nil in Hx|].
    simpl in Hx. apply elem_of_cons in Hx as [->|Hx]; [lia|].
    destruct (get_by_id db p) as [o|] eqn:E; [|by apply not_elem_of_nil in Hx].
    destruct (get_by_id_Some db p o E) as [Hin Hp].
    destruct (parent o) as [p'|] eqn:Ep.
    - specialize (IH _ _ Hx). specialize (Hdec o p p' Hin Hp Ep). lia.
    - destruct n; by apply not_elem_of_nil in Hx. }
  intros o j n Hin Hj Hx.
  destruct (parent o) as [p|] eqn:Ep.
  - specialize (Hle _ _ _ Hx). specialize (Hdec o j p Hin Hj Ep). lia.
  - destruct n; by apply not_elem_of_nil in Hx.
Qed.

(** ** Tables: giving an organization a parent *)

Lemma update_parent_ids db k p :
  id <$> update_parent db k p = id <$> db.
Proof.
  unfold update_parent. rewrite <- list_fmap_compose.
  apply list_fmap_ext. intros i o _. simpl. by case_decide.
Qed.

Lemma update_parent_wf db k p : wf_table db → wf_table (update_parent db k p).
Proof.
  intros [Hnd Hall]. split; [by rewrite update_parent_ids|].
  unfold update_parent. apply Forall_fmap. eapply Forall_impl; [exact Hall|].
  intros o Ho. simpl. by case_decide.
Qed.

(** A change of the rows that keeps their keys commutes with the lookup by
    key. *)
Lemma get_by_id_fmap (h : Organization → Organization) db j :
  (∀ o, id (h o) = id o) → get_by_id (h <$> db) j = h <$> get_by_id db j.
Proof.
  intros Hid. unfold get_by_id. induction db as [|x db IH]; [done|].
  rewrite fmap_cons. destruct (decide (id x = Some j)) as [Hx|Hx].
  - rewrite (filter_cons_True _ x) by done.
    rewrite filter_cons_True; [done|]. by rewrite Hid.
  - rewrite (filter_cons_False _ x) by done.
    rewrite filter_cons_False; [done|]. by rewrite Hid.
Qed.

Lemma get_by_id_update_parent db k p j :
  get_by_id (update_parent db k p) j
  = (λ o, if decide (id o = Some k) then set_parent o p else o)
      <$> get_by_id db j.
Proof. apply get_by_id_fmap. intros o. by case_decide. Qed.

Lemma parent_of_update_parent_ne db k p j :
  j ≠ k → parent_of (update_parent db k p) j = parent_of db j.
Proof.
  intros Hne. unfold parent_of. rewrite get_by_id_update_parent.
  destruct (get_by_id db j) as [o|] eqn:E; [|done]. simpl.
  destruct (get_by_id_Some db j o E) as [_ Hj].
  rewrite decide_False; [done|]. congruence.
Qed.

Lemma parent_of_update_parent_eq db k p o :
  get_by_id db k = Some o → parent_of (update_parent db k p) k = p.
Proof.
  intros E. unfold parent_of. rewrite get_by_id_update_parent, E. simpl.
  destruct (get_by_id_Some db k o E) as [_ Hk]. by rewrite decide_True.
Qed.

(** ** OrganizationForm.__init__: the candidates of [parent] and the tree *)

(** The queryset that lines 33-34 leave on the [parent] field. *)
Lemma parent_field_restricted db cls args kwargs form f :
  OrganizationForm__init__ db cls args kwargs = Ok form →
  fields form !! "parent" = Some f →
  truthy (id (instance form)) = true →
  queryset f
  = Some (exclude_id__in
            (values_list_id (get_descendants db (instance form) true))
            (objects db)).
Proof.
  intros Hinit Hf Ht.
  apply OrganizationForm__init__steps in Hinit as (s0 & s1 & H0 & H1 & H2).
  rewrite (restrict_parent_instance _ _ _ H2) in Ht |- *.
  rewrite restrict_parent_eq in H2. injection H2 as <-.
  destruct (fields s1 !! "parent") as [f1|] eqn:E; [|congruence].
  rewrite Ht in Hf. simpl in Hf. rewrite lookup_insert_eq in Hf.
  by injection Hf as <-.
Qed.

(** The rows whose key the [parent] field excludes: those with the
    instance's key and those below it. *)
Lemma excluded_key db self k o :
  id self = Some k → o ∈ db →
  id o ∈ Some <$> values_list_id (get_descendants db self true) →
  ∃ o', o' ∈ db ∧ id o' = id o
        ∧ (id o' = Some k ∨ k ∈ ancestor_ids db (length db) (parent o')).
Proof.
  intros Hk Hin (o' & Ho' & Heq & _)%Some_elem_of_values_list_id.
  unfold get_descendants in Ho'. rewrite Hk in Ho'.
  apply list_elem_of_filter in Ho' as [Hp Hdb].
  exists o'. split_and!; [done..|]. destruct Hp as [[_ ?]|?]; eauto.
Qed.

Lemma not_excluded_key db self k o :
  id self = Some k → o ∈ db → is_Some (id o) →
  id o ∉ Some <$> values_list_id (get_descendants db self true) →
  id o ≠ Some k ∧ k ∉ ancestor_ids db (length db) (parent o).
Proof.
  intros Hk Hin Hsome Hn.
  assert (Hno : o ∉ get_descendants db self true).
  { intros Ho. apply Hn, Some_elem_of_values_list_id. eauto. }
  unfold get_descendants in Hno. rewrite Hk in Hno.
  rewrite list_elem_of_filter in Hno. split.
  - intros Heq. apply Hno. split; [by left | done].
  - intros Hanc. apply Hno. split; [by right | done].
Qed.

(** A key met on a walk is the start or the successor of some key. *)
Lemma walk_elem_next next n q k :
  k ∈ walk next n q → q = Some k ∨ ∃ j, next j = Some k.
Proof.
  revert q. induction n as [|n IH]; intros q Hk.
  - destruct q; by apply not_elem_of_nil in Hk.
  - destruct q as [j|]; [|by apply not_elem_of_nil in Hk].
    simpl in Hk. apply elem_of_cons in Hk as [->|Hk]; [by left|].
    right. destruct (IH _ Hk) as [Hj|Hj]; eauto.
Qed.

(** X8.  For an organization without children, the candidates of [parent]
    are all organizations but itself. *)
Theorem parent_candidates_leaf db cls args kwargs form f k :
  OrganizationForm__init__ db cls args kwargs = Ok form →
  fields form !! "parent" = Some f →
  id (instance form) = Some k → k ≠ 0%Z →
  (∀ o, o ∈ db → parent o ≠ Some k) →
  ∃ qs, queryset f = Some qs
    ∧ ∀ o, o ∈ qs ↔ o ∈ objects db ∧ id o ≠ Some k.
Proof.
  intros Hinit Hf Hk Hk0 Hleaf.
  assert (Ht : truthy (id (instance form)) = true).
  { rewrite Hk. simpl. by apply negb_true_iff, Z.eqb_neq. }
  eexists. split; [exact (parent_field_restricted _ _ _ _ _ _ Hinit Hf Ht)|].
  intros o. rewrite elem_of_exclude_id__in. unfold objects.
  split; intros [Hin Hn]; (split; [done|]).
  - intros Heq. apply Hn, Some_elem_of_values_list_id.
    exists o. split_and!; [|done|by rewrite Heq].
    by apply (get_descendants_self db (instance form) o k).
  - intros Hex.
    destruct (excluded_key db _ k o Hk Hin Hex) as (o' & Hin' & Heq & [Hs|Hanc]).
    + congruence.
    + rewrite ancestor_ids_walk in Hanc.
      apply walk_elem_next in Hanc as [Hp|[j Hj]].
      * by apply (Hleaf o').
      * apply parent_of_Some in Hj as (o'' & Hin'' & _ & Hp).
        by apply (Hleaf o'').
Qed.

(** The grandchild of the sample table has no children: its candidates are
    the other three rows. *)
Lemma parent_candidates_leaf_witness :
  OrganizationForm__init__ sample_db (OrganizationForm sample_db) []
    grandchild_kwargs = Ok leaf_form
  ∧ fields leaf_form !! "parent" = Some leaf_candidates
  ∧ id (instance leaf_form) = Some 3%Z
  ∧ (∀ o, o ∈ sample_db → parent o ≠ Some 3%Z)
  ∧ ∃ qs, queryset leaf_candidates = Some qs
      ∧ ∀ o, o ∈ qs ↔ o ∈ objects sample_db ∧ id o ≠ Some 3%Z.
Proof.
  assert (Hinit : OrganizationForm__init__ sample_db (OrganizationForm sample_db)
                    [] grandchild_kwargs = Ok leaf_form)
    by (vm_compute; reflexivity).
  assert (Hf : fields leaf_form !! "parent" = Some leaf_candidates)
    by (vm_compute; reflexivity).
  assert (Hk : id (instance leaf_form) = Some 3%Z) by reflexivity.
  assert (Hleaf : ∀ o, o ∈ sample_db → parent o ≠ Some 3%Z).
  { apply (proj1 (Forall_forall (λ o, parent o ≠ Some 3%Z) sample_db)).
    by_evaluation. }
  split; [exact Hinit|]. split; [exact Hf|]. split; [exact Hk|].
  split; [exact Hleaf|].
  exact (parent_candidates_leaf _ _ _ _ _ _ 3%Z Hinit Hf Hk ltac:(lia) Hleaf).
Defined.

(** X9.  In a well-formed acyclic table the parent an organization has is
    among the candidates of its [parent] field: the restriction never makes
    the current value invalid. *)
Theorem parent_candidates_keep_parent db cls args kwargs form f p P :
  wf_table db → acyclic db →
  OrganizationForm__init__ db cls args kwargs = Ok form →
  fields form !! "parent" = Some f →
  instance form ∈ db →
  truthy (id (instance form)) = true →
  parent (instance form) = Some p →
  P ∈ db → id P = Some p →
  ∃ qs, queryset f = Some qs ∧ P ∈ qs.
Proof.
  intros Hwf Hac Hinit Hf Hin Ht Hp HP HidP.
  eexists. split; [exact (parent_field_restricted _ _ _ _ _ _ Hinit Hf Ht)|].
  apply elem_of_exclude_id__in. split; [done|]. intros Hex.
  destruct (id (instance form)) as [k|] eqn:Hk; [|done].
  destruct (excluded_key db _ k P Hk HP Hex) as (o' & Hin' & Heq & Hcase).
  assert (o' = P) as -> by (by apply (wf_table_inj db)).
  assert (Hself : k ∈ ancestor_ids db (S (length db)) (parent (instance form))).
  { rewrite Hp. simpl. rewrite (get_by_id_wf db p P) by done.
    destruct Hcase as [Hs|Hanc].
    - apply elem_of_cons. left. congruence.
    - apply elem_of_cons. by right. }
  by apply (Hac (instance form) k (S (length db))) in Hself.
Qed.

Lemma sample_db_acyclic : acyclic sample_db.
Proof.
  apply acyclic_decreasing. intros o j p Hin. revert j p. revert o Hin.
  apply (proj1 (Forall_forall
                  (λ o, ∀ j p, id o = Some j → parent o = Some p → (p < j)%Z)
                  sample_db)).
  repeat constructor; intros j p [= <-] Hp; try discriminate;
    injection Hp as <-; lia.
Qed.

Lemma parent_candidates_keep_parent_witness :
  wf_table sample_db ∧ acyclic sample_db
  ∧ OrganizationForm__init__ sample_db (OrganizationForm sample_db) []
      child_kwargs = Ok child_form
  ∧ fields child_form !! "parent" = Some child_candidates
  ∧ instance child_form ∈ sample_db
  ∧ truthy (id (instance child_form)) = true
  ∧ parent (instance child_form) = Some 1%Z
  ∧ root ∈ sample_db ∧ id root = Some 1%Z
  ∧ ∃ qs, queryset child_candidates = Some qs ∧ root ∈ qs.
Proof.
  assert (Hf : fields child_form !! "parent" = Some child_candidates)
    by (vm_compute; reflexivity).
  assert (Hin : instance child_form ∈ sample_db) by by_evaluation.
  assert (Hroot : root ∈ sample_db) by by_evaluation.
  split_and!; [exact sample_db_wf | exact sample_db_acyclic
              | exact child_form_init | exact Hf | exact Hin
              | reflexivity | reflexivity | exact Hroot | reflexivity |].
  exact (parent_candidates_keep_parent _ _ _ _ _ _ 1%Z root
           sample_db_wf sample_db_acyclic child_form_init Hf Hin
           eq_refl eq_refl Hroot eq_refl).
Defined.

(** X10.  In a well-formed acyclic table, saving an organization with any
    candidate of its [parent] field as the new parent leaves the table
    acyclic: lines 31-34 prevent every recursive reference, at any depth. *)
Theorem parent_choice_keeps_acyclic db cls args kwargs form f qs k P p :
  wf_table db → acyclic db →
  OrganizationForm__init__ db cls args kwargs = Ok form →
  fields form !! "parent" = Some f →
  queryset f = Some qs →
  instance form ∈ db →
  id (instance form) = Some k → k ≠ 0%Z →
  P ∈ qs → id P = Some p →
  acyclic (update_parent db k (Some p)).
Proof.
  intros Hwf Hac Hinit Hf Hqs Hin Hk Hk0 HP HidP.
  assert (Ht : truthy (id (instance form)) = true).
  { rewrite Hk. simpl. by apply negb_true_iff, Z.eqb_neq. }
  rewrite (parent_field_restricted _ _ _ _ _ _ Hinit Hf Ht) in Hqs.
  injection Hqs as <-.
  apply elem_of_exclude_id__in in HP as [HPdb HPn]. unfold objects in HPdb.
  destruct (not_excluded_key db _ k P Hk HPdb ltac:(by rewrite HidP) HPn)
    as [Hne Hnanc].
  assert (Hpk : p ≠ k) by congruence.
  assert (Hkey : k ∈ values_list_id db)
    by (apply elem_of_values_list_id; eauto).
  set (next := parent_of db).
  set (next' := parent_of (update_parent db k (Some p))).
  assert (Hagree : ∀ j, j ≠ k → next' j = next j)
    by (intros j Hj; by apply parent_of_update_parent_ne).
  assert (Hk' : next' k = Some p).
  { apply (parent_of_update_parent_eq db k (Some p) (instance form)).
    by apply get_by_id_wf. }
  assert (HnoP : ∀ m, k ∉ walk next m (Some p)).
  { intros [|m]; [apply not_elem_of_nil|]. simpl.
    apply not_elem_of_cons. split; [done|]. intros Hanc.
    apply Hnanc. apply (ancestor_ids_enough db m); [done..|].
    rewrite ancestor_ids_walk. fold next.
    by rewrite <- (parent_of_row db p P Hwf HPdb HidP). }
  assert (Hsame : ∀ m, walk next' m (Some p) = walk next m (Some p))
    by (intros m; by apply (walk_agree next next' m (Some p) k)).
  intros o' j n Hin' Hj. rewrite ancestor_ids_walk. fold next'.
  apply list_elem_of_fmap in Hin' as (o & -> & Ho).
  destruct (decide (id o = Some k)) as [Hok|Hok].
  - simpl in Hj |- *. rewrite Hsame. assert (j = k) as -> by congruence.
    apply HnoP.
  - assert (Hjk : j ≠ k) by congruence.
    rewrite <- (parent_of_row db j o Hwf Ho Hj). fold next. intros Hx.
    destruct (walk_redirect next next' n (next j) k p j Hagree Hk' Hx)
      as [Hold|[Hup Hdown]].
    + revert Hold. unfold next. rewrite (parent_of_row db j o Hwf Ho Hj).
      rewrite <- ancestor_ids_walk. by apply (Hac o).
    + rewrite Hsame in Hdown.
      apply (HnoP (n + n)). by apply (walk_trans next n n (Some p) j k).
Qed.

(** On the form that edits [child], the second root is a candidate; with
    it as the parent of [child] the sample table is still acyclic. *)
Lemma parent_choice_keeps_acyclic_witness :
  wf_table sample_db ∧ acyclic sample_db
  ∧ OrganizationForm__init__ sample_db (OrganizationForm sample_db) []
      child_kwargs = Ok child_form
  ∧ fields child_form !! "parent" = Some child_candidates
  ∧ queryset child_candidates = Some [root; other]
  ∧ instance child_form ∈ sample_db
  ∧ id (instance child_form) = Some 2%Z
  ∧ other ∈ [root; other] ∧ id other = Some 4%Z
  ∧ acyclic (update_parent sample_db 2 (Some 4%Z)).
Proof.
  assert (Hf : fields child_form !! "parent" = Some child_candidates)
    by (vm_compute; reflexivity).
  assert (Hin : instance child_form ∈ sample_db) by by_evaluation.
  assert (HP : other ∈ [root; other]) by by_evaluation.
  split_and!; [exact sample_db_wf | exact sample_db_acyclic
              | exact child_form_init | exact Hf | reflexivity | exact Hin
              | reflexivity | exact HP | reflexivity |].
  exact (parent_choice_keeps_acyclic _ _ _ _ _ _ _ 2%Z other 4%Z
           sample_db_wf sample_db_acyclic child_form_init Hf eq_refl Hin
           eq_refl ltac:(lia) HP eq_refl).
Defined.

(** ** OrganizationForm.__init__: the candidates of [replaced_by] and the
    chain of replacements *)

(** The queryset that lines 25-29 leave on the [replaced_by] field. *)
Lemma replaced_by_field_restricted db cls args kwargs form f :
  OrganizationForm__init__ db cls args kwargs = Ok form →
  fields form !! "replaced_by" = Some f →
  queryset f
  = Some (if truthy (id (instance form))
          then exclude_id (id (instance form))
                 (filter_replaced_by__isnull (objects db))
          else filter_replaced_by__isnull (objects db)).
Proof.
  intros Hinit Hf.
  apply OrganizationForm__init__steps in Hinit as (s0 & s1 & H0 & H1 & H2).
  rewrite (restrict_parent_instance _ _ _ H2).
  rewrite (restrict_parent_other _ _ _ "replaced_by" H2) in Hf by done.
  rewrite (restrict_replaced_by_instance _ _ _ H1).
  rewrite restrict_replaced_by_eq in H1. injection H1 as <-.
  destruct (fields s0 !! "replaced_by") as [f0|] eqn:E; [|congruence].
  simpl in Hf. rewrite lookup_insert_eq in Hf. by injection Hf as <-.
Qed.

(** X11.  In a well-formed table, saving an organization with any
    candidate of its [replaced_by] field as the replacement gives a chain
    that ends there: the replacement is another organization, and in the
    saved table it is itself not replaced. *)
Theorem replaced_by_choice_ends db cls args kwargs form f qs k R r :
  wf_table db →
  OrganizationForm__init__ db cls args kwargs = Ok form →
  fields form !! "replaced_by" = Some f →
  queryset f = Some qs →
  id (instance form) = Some k → k ≠ 0%Z →
  R ∈ qs → id R = Some r →
  r ≠ k ∧ replaced_by_of (update_replaced_by db k (Some r)) r = None.
Proof.
  intros Hwf Hinit Hf Hqs Hk Hk0 HR HidR.
  rewrite (replaced_by_field_restricted _ _ _ _ _ _ Hinit Hf) in Hqs.
  injection Hqs as <-. rewrite Hk in HR.
  replace (truthy (Some k)) with true in HR
    by (symmetry; by apply negb_true_iff, Z.eqb_neq).
  apply elem_of_exclude_id in HR as [HR Hne].
  apply elem_of_filter_replaced_by__isnull in HR as [HRdb Hnone].
  unfold objects in HRdb.
  assert (Hrk : r ≠ k) by congruence. split; [done|].
  unfold replaced_by_of, update_replaced_by.
  rewrite get_by_id_fmap by (intros o; by case_decide).
  rewrite (get_by_id_wf db r R Hwf HRdb HidR). simpl.
  by rewrite decide_False by congruence.
Qed.

(** On the form that edits [child], the root is a candidate replacement. *)
Lemma replaced_by_choice_ends_witness :
  wf_table sample_db
  ∧ OrganizationForm__init__ sample_db (OrganizationForm sample_db) []
      child_kwargs = Ok child_form
  ∧ fields child_form !! "replaced_by" = Some child_candidates
  ∧ queryset child_candidates = Some [root; other]
  ∧ id (instance child_form) = Some 2%Z
  ∧ root ∈ [root; other] ∧ id root = Some 1%Z
  ∧ 1%Z ≠ 2%Z
  ∧ replaced_by_of (update_replaced_by sample_db 2 (Some 1%Z)) 1 = None.
Proof.
  assert (Hf : fields child_form !! "replaced_by" = Some child_candidates)
    by (vm_compute; reflexivity).
  assert (HR : root ∈ [root; other]) by by_evaluation.
  split; [exact sample_db_wf|]. split; [exact child_form_init|].
  split; [exact Hf|]. split; [reflexivity|]. split; [reflexivity|].
  split; [exact HR|]. split; [reflexivity|].
  exact (replaced_by_choice_ends _ _ _ _ _ _ _ 2%Z root 1%Z
           sample_db_wf child_form_init Hf eq_refl eq_refl
           ltac:(lia) HR eq_refl).
Defined.
